(** * PDF to long screenshot converter: rendering and composition pipeline

    A shallow embedding of [src/renderer.py] (class [PDFRenderer]) and
    [src/compositor.py] (class [ImageCompositor]), together with the part of
    Python and of the Pillow imaging library the two classes rely on, and the
    properties of the natural-language specification proved about them. *)

From Stdlib Require Import ZArith List String Bool Lia.
From Stdlib Require Import DecimalString.
Import ListNotations.

Local Open Scope string_scope.
Local Open Scope Z_scope.

(* ================================================================== *)
(** * Python: exceptions, ranges, [sum] and [max] *)
(* ================================================================== *)

Module Py.

(** What can be raised: [ValueError] and [OverflowError] (built in),
    Pillow's [DecompressionBombError], the classes of [src/exceptions.py]
    involved in the pipeline, and [KeyboardInterrupt] and [SystemExit],
    which derive from [BaseException] but not from [Exception].  Each
    carries its message, which is what [str(e)] returns. *)
Inductive BaseException : Type :=
| ValueError (msg : string)
| OverflowError (msg : string)
| DecompressionBombError (msg : string)
| RenderingError (msg : string)
| CompositionError (msg : string)
| KeyboardInterrupt (msg : string)
| SystemExit (msg : string).

Definition str (e : BaseException) : string :=
  match e with
  | ValueError m | OverflowError m | DecompressionBombError m
  | RenderingError m | CompositionError m
  | KeyboardInterrupt m | SystemExit m => m
  end.

(** [isinstance(e, Exception)]: what an [except Exception] clause
    catches. *)
Definition is_Exception (e : BaseException) : bool :=
  match e with
  | KeyboardInterrupt _ | SystemExit _ => false
  | _ => true
  end.

(** A computation either raises or returns. *)
Definition Result (A : Type) : Type := (BaseException + A)%type.

Definition ret {A} (a : A) : Result A := inr a.
Definition raise {A} (e : BaseException) : Result A := inl e.

Definition bind {A B} (m : Result A) (k : A -> Result B) : Result B :=
  match m with
  | inl e => inl e
  | inr a => k a
  end.

(** [try: m  except Exception as e: h e]; an exception that is not an
    [Exception] passes through. *)
Definition try_except {A} (m : Result A) (h : BaseException -> Result A)
  : Result A :=
  match m with
  | inl e => if is_Exception e then h e else inl e
  | inr a => inr a
  end.

(** [str(n)] for an integer, as an f-string prints it. *)
Definition str_int (n : Z) : string :=
  NilEmpty.string_of_int (Z.to_int n).

(** [start, start + step, ...], [n] elements. *)
Fixpoint count_from (start step : Z) (n : nat) : list Z :=
  match n with
  | O => []
  | S k => start :: count_from (start + step) step k
  end.

(** [range(start, stop, step)]; the number of elements is
    [max(0, ceil((stop - start) / step))].  A zero step raises in Python
    and is not used by the program; it gives the empty range here. *)
Definition range3 (start stop step : Z) : list Z :=
  if 0 <? step then
    count_from start step (Z.to_nat ((stop - start + step - 1) / step))
  else if step <? 0 then
    count_from start step (Z.to_nat ((start - stop - step - 1) / (- step)))
  else [].

(** [range(stop)] *)
Definition range (stop : Z) : list Z := range3 0 stop 1.

(** [sum(xs)] *)
Definition sum (xs : list Z) : Z := fold_left Z.add xs 0.

(** [max(xs)]: raises [ValueError] on an empty sequence. *)
Definition max (xs : list Z) : Result Z :=
  match xs with
  | [] => raise (ValueError "max() arg is an empty sequence")
  | x :: rest => ret (fold_left Z.max rest x)
  end.

(** [len(xs)] *)
Definition len {A} (xs : list A) : Z := Z.of_nat (List.length xs).

(** [enumerate(xs, start)] *)
Fixpoint enumerate {A} (xs : list A) (start : Z) : list (Z * A) :=
  match xs with
  | [] => []
  | x :: rest => (start, x) :: enumerate rest (start + 1)
  end.

End Py.

Declare Scope py_scope.
Delimit Scope py_scope with py.
Notation "x <- m ;; k" := (Py.bind m (fun x => k))
  (at level 100, m at next level, right associativity) : py_scope.
Notation "' p <- m ;; k" := (Py.bind m (fun p => k))
  (at level 100, p pattern, m at next level, right associativity) : py_scope.

(* ================================================================== *)
(** * Pillow: images, [Image.new], [paste], [crop], [convert] *)
(* ================================================================== *)

Module PIL.

(** The image modes that reach the program: pdf2image produces ['RGB'],
    ['RGBA'] (transparent rendering) or ['L'] (grayscale rendering). *)
Inductive Mode : Type := RGB | RGBA | L.

Definition mode_eqb (a b : Mode) : bool :=
  match a, b with
  | RGB, RGB | RGBA, RGBA | L, L => true
  | _, _ => false
  end.

(** A pixel is a tuple of 8-bit band values whose shape follows the mode. *)
Definition rgb : Type := (Z * Z * Z)%type.
Definition rgba : Type := (Z * Z * Z * Z)%type.

(** The imaging core holds the two sizes of an image as C [int]s.  A
    larger argument is refused when it is handed to the core, with the
    message CPython has for it where a C [long] has 64 bits. *)
Definition INT_MAX : Z := 2147483647.
Definition LONG_MAX : Z := 9223372036854775807.

Definition c_int_overflow (v : Z) : Py.BaseException :=
  Py.OverflowError
    (if LONG_MAX <? v then "Python int too large to convert to C long"
     else "signed integer is greater than maximum").

(** [Image.MAX_IMAGE_PIXELS], and the error of Pillow's guard against
    decompression bombs for a size of more than twice as many pixels. *)
Definition MAX_IMAGE_PIXELS : Z := 89478485.

Definition bomb (w h : Z) : Py.BaseException :=
  Py.DecompressionBombError
    ("Image size (" ++ Py.str_int (Z.max 1 w * Z.max 1 h)
     ++ " pixels) exceeds limit of " ++ Py.str_int (2 * MAX_IMAGE_PIXELS)
     ++ " pixels, could be decompression bomb DOS attack.").

Definition fits (w h : N) : bool :=
  (Z.of_N w <=? INT_MAX) && (Z.of_N h <=? INT_MAX).

(** A test on a size: [ok] with the evidence that the size fits the
    core, [bad] otherwise. *)
Definition if_fits {T} (w h : N) (ok : fits w h = true -> T) (bad : T) : T :=
  (if fits w h as b return (fits w h = b -> T) then ok else fun _ => bad)
    eq_refl.

(** The pixel grid of an image: its size, which is never negative and
    fits the core, and the pixel-access object ([image.load()]), indexed
    [x, y] with [0 <= x < width] and [0 <= y < height].  Access outside
    the grid raises in Pillow; no function of the program does it, and
    [at] is left unconstrained there.  Memory is taken to be there for
    every size that fits the core: a failure to allocate is outside the
    model. *)
Record Raster (P : Type) : Type := mkRaster {
  cols : N;
  rows : N;
  at_ : Z -> Z -> P;
  size_fits : fits cols rows = true
}.
Arguments mkRaster {P} _ _ _ _.
Arguments cols {P} _.
Arguments rows {P} _.
Arguments at_ {P} _ _ _.
Arguments size_fits {P} _.

Inductive Image : Type :=
| ImRGB (r : Raster rgb)
| ImRGBA (r : Raster rgba)
| ImL (r : Raster Z).

Definition mode (im : Image) : Mode :=
  match im with
  | ImRGB _ => RGB
  | ImRGBA _ => RGBA
  | ImL _ => L
  end.

Definition width (im : Image) : Z :=
  match im with
  | ImRGB r => Z.of_N (cols r)
  | ImRGBA r => Z.of_N (cols r)
  | ImL r => Z.of_N (cols r)
  end.

Definition height (im : Image) : Z :=
  match im with
  | ImRGB r => Z.of_N (rows r)
  | ImRGBA r => Z.of_N (rows r)
  | ImL r => Z.of_N (rows r)
  end.

Definition size (im : Image) : Z * Z := (width im, height im).

Definition inside (w h x y : Z) : bool :=
  (0 <=? x) && (x <? w) && (0 <=? y) && (y <? h).

(** [image.convert('RGB')] on pixels: an ['L'] value is replicated into
    the three bands, an ['RGBA'] pixel loses its alpha band. *)
Definition rgb_of_rgba (p : rgba) : rgb :=
  let '(r, g, b, _) := p in (r, g, b).
Definition rgb_of_l (v : Z) : rgb := (v, v, v).

(** The pixels of [image.convert('RGB')]. *)
Definition load_rgb (im : Image) (x y : Z) : rgb :=
  match im with
  | ImRGB r => at_ r x y
  | ImRGBA r => rgb_of_rgba (at_ r x y)
  | ImL r => rgb_of_l (at_ r x y)
  end.

(** [image.convert('RGB')] *)
Definition convert_RGB (im : Image) : Image :=
  match im with
  | ImRGB r => ImRGB (mkRaster (cols r) (rows r) (at_ r) (size_fits r))
  | ImRGBA r =>
      ImRGB (mkRaster (cols r) (rows r)
                      (fun x y => rgb_of_rgba (at_ r x y)) (size_fits r))
  | ImL r =>
      ImRGB (mkRaster (cols r) (rows r)
                      (fun x y => rgb_of_l (at_ r x y)) (size_fits r))
  end.

(** [Image.new('RGB', (w, h), color)]: a negative size raises a
    [ValueError], a size beyond a C [int] an [OverflowError], for the
    width first. *)
Definition new_RGB (sz : Z * Z) (color : rgb) : Py.Result Image :=
  let '(w, h) := sz in
  if (w <? 0) || (h <? 0) then
    Py.raise (Py.ValueError "Width and height must be >= 0")
  else
    if_fits (Z.to_N w) (Z.to_N h)
      (fun H =>
         Py.ret (ImRGB (mkRaster (Z.to_N w) (Z.to_N h) (fun _ _ => color) H)))
      (Py.raise (c_int_overflow (if INT_MAX <? w then w else h))).

(** [canvas.paste(image, (x0, y0))] on an ['RGB'] canvas: the region of
    the canvas under the image takes the image's pixels (its RGB bands
    when the image is of another mode); the part of the image that falls
    outside the canvas is clipped.  Pillow mutates the canvas; the
    updated canvas is returned here.  A canvas of another mode does not
    occur in the program and is returned as it is. *)
Definition paste (canvas image : Image) (pos : Z * Z) : Image :=
  let '(x0, y0) := pos in
  match canvas with
  | ImRGB c =>
      ImRGB (mkRaster (cols c) (rows c)
        (fun x y =>
           if inside (width image) (height image) (x - x0) (y - y0)
           then load_rgb image (x - x0) (y - y0)
           else at_ c x y)
        (size_fits c))
  | _ => canvas
  end.

(** Pillow's rounded division by 255 and its blend of two band values
    under an 8-bit mask value. *)
Definition div255 (a : Z) : Z :=
  let tmp := a + 128 in Z.shiftr (Z.shiftr tmp 8 + tmp) 8.
Definition blend (mask in1 in2 : Z) : Z :=
  div255 (in1 * (255 - mask) + in2 * mask).

(** [canvas.paste(image, mask=image.split()[3])] for an ['RGBA'] image on
    an ['RGB'] canvas, at the origin: every band is blended with the
    canvas under the image's alpha band. *)
Definition paste_alpha (canvas : Image) (image : Raster rgba) : Image :=
  match canvas with
  | ImRGB c =>
      ImRGB (mkRaster (cols c) (rows c)
        (fun x y =>
           if inside (Z.of_N (cols image)) (Z.of_N (rows image)) x y
           then
             let '(r0, g0, b0) := at_ c x y in
             let '(r, g, b, a) := at_ image x y in
             (blend a r0 r, blend a g0 g, blend a b0 b)
           else at_ c x y)
        (size_fits c))
  | _ => canvas
  end.

(** [image.crop((x0, y0, x1, y1))] of an ['RGB'] image: a new
    image of size [(x1 - x0, y1 - y0)]; a right or lower
    coordinate below the left or upper one raises; pixels taken from
    outside the source are black.  Images of the other modes are never
    cropped by the program and are converted first here.

    Pillow guards [crop] against decompression bombs: it refuses a box of
    more than [2 * MAX_IMAGE_PIXELS] pixels.  Of these boxes the model
    refuses the ones the core could not hold, those beyond a C [int], and
    takes the crop to the others to pass.  The boxes the renderer crops
    lie within a page, which Pillow has opened under the same guard; the
    canvas of the compositor is made by [Image.new], which has no such
    guard, and the statements on a canvas that may be trimmed assume it
    within the guard ([Props.canvas_fits]). *)
Definition crop (im : Image) (box : Z * Z * Z * Z) : Py.Result Image :=
  let '(x0, y0, x1, y1) := box in
  if x1 <? x0 then
    Py.raise (Py.ValueError "Coordinate 'right' is less than 'left'")
  else if y1 <? y0 then
    Py.raise (Py.ValueError "Coordinate 'lower' is less than 'upper'")
  else
    if_fits (Z.to_N (x1 - x0)) (Z.to_N (y1 - y0))
      (fun H =>
         Py.ret (ImRGB (mkRaster (Z.to_N (x1 - x0)) (Z.to_N (y1 - y0))
           (fun x y =>
              if inside (width im) (height im) (x + x0) (y + y0)
              then load_rgb im (x + x0) (y + y0)
              else (0, 0, 0))
           H)))
      (Py.raise (bomb (x1 - x0) (y1 - y0))).

End PIL.

(* ================================================================== *)
(** * [src/renderer.py]: class [PDFRenderer] *)
(* ================================================================== *)

Module Renderer.
Import PIL.
Local Open Scope py_scope.

Record PDFRenderer : Type := mkPDFRenderer {
  dpi : Z;
  auto_crop : bool;
  crop_margin : Z
}.

(** [PDFRenderer.__init__] *)
Definition __init__ (dpi : Z) (auto_crop : bool) (crop_margin : Z)
  : Py.Result PDFRenderer :=
  if negb ((72 <=? dpi) && (dpi <=? 300)) then
    Py.raise (Py.ValueError
      ("DPI must be between 72 and 300, got " ++ Py.str_int dpi))
  else if crop_margin <? 0 then
    Py.raise (Py.ValueError
      ("Crop margin must be non-negative, got " ++ Py.str_int crop_margin))
  else Py.ret (mkPDFRenderer dpi auto_crop crop_margin).

(** [_ensure_white_background]: an ['RGBA'] image is pasted on a new
    white image of its size under its own alpha band, an image of
    another mode than ['RGB'] is converted, an ['RGB'] image is returned
    as it is. *)
Definition _ensure_white_background (image : Image) : Py.Result Image :=
  match image with
  | ImRGBA r =>
      white_bg <- new_RGB (size image) (255, 255, 255) ;;
      Py.ret (paste_alpha white_bg r)
  | ImL _ => Py.ret (convert_RGB image)
  | ImRGB _ => Py.ret image
  end.

(** [_is_white_pixel(pixel, threshold)] *)
Definition _is_white_pixel (pixel : rgb) (threshold : Z) : bool :=
  let '(p0, p1, p2) := pixel in
  (threshold <? p0) && (threshold <? p1) && (threshold <? p2).

(** The default value of [threshold]. *)
Definition threshold_default : Z := 250.

(** The inner loops of the four scans: does column [x] (row [y]) hold a
    pixel that is not white? *)
Definition column_has_content (pixels : Z -> Z -> rgb) (height x : Z)
  : bool :=
  existsb (fun y => negb (_is_white_pixel (pixels x y) threshold_default))
          (Py.range height).

Definition row_has_content (pixels : Z -> Z -> rgb) (width y : Z) : bool :=
  existsb (fun x => negb (_is_white_pixel (pixels x y) threshold_default))
          (Py.range width).

(** [_find_left_boundary]: the first column from the left with a
    non-white pixel, [0] when there is none. *)
Definition _find_left_boundary (pixels : Z -> Z -> rgb) (width height : Z)
  : Z :=
  match find (column_has_content pixels height) (Py.range width) with
  | Some x => x
  | None => 0
  end.

(** [_find_right_boundary]: one past the first column from the right with
    a non-white pixel, [width] when there is none. *)
Definition _find_right_boundary (pixels : Z -> Z -> rgb) (width height : Z)
  : Z :=
  match find (column_has_content pixels height)
             (Py.range3 (width - 1) (-1) (-1)) with
  | Some x => x + 1
  | None => width
  end.

(** [_find_top_boundary] *)
Definition _find_top_boundary (pixels : Z -> Z -> rgb) (width height : Z)
  : Z :=
  match find (row_has_content pixels width) (Py.range height) with
  | Some y => y
  | None => 0
  end.

(** [_find_bottom_boundary] *)
Definition _find_bottom_boundary (pixels : Z -> Z -> rgb) (width height : Z)
  : Z :=
  match find (row_has_content pixels width)
             (Py.range3 (height - 1) (-1) (-1)) with
  | Some y => y + 1
  | None => height
  end.

(** The four scans as [_crop_whitespace] calls them, in its order of
    assignment, gathered as the box [(left, top, right, bottom)]. *)
Definition content_box (pixels : Z -> Z -> rgb) (width height : Z)
  : Z * Z * Z * Z :=
  let left_ := _find_left_boundary pixels width height in
  let right_ := _find_right_boundary pixels width height in
  let top_ := _find_top_boundary pixels width height in
  let bottom_ := _find_bottom_boundary pixels width height in
  (left_, top_, right_, bottom_).

(** The box of [_crop_whitespace] after the margin is added and the box
    is clamped to the image. *)
Definition margin_box (self : PDFRenderer) (width height : Z)
    (box : Z * Z * Z * Z) : Z * Z * Z * Z :=
  let '(left_, top_, right_, bottom_) := box in
  let left_ := Z.max 0 (left_ - crop_margin self) in
  let right_ := Z.min width (right_ + crop_margin self) in
  let top_ := Z.max 0 (top_ - crop_margin self) in
  let bottom_ := Z.min height (bottom_ + crop_margin self) in
  (left_, top_, right_, bottom_).

(** [_crop_whitespace] *)
Definition _crop_whitespace (self : PDFRenderer) (image : Image)
  : Py.Result Image :=
  let image :=
    if negb (mode_eqb (mode image) RGB) then convert_RGB image else image in
  let pixels := load_rgb image in
  let '(width, height) := size image in
  let '(left_, top_, right_, bottom_) :=
    margin_box self width height (content_box pixels width height) in
  if (left_ <? right_) && (top_ <? bottom_) then
    crop image (left_, top_, right_, bottom_)
  else
    Py.ret image.

(** What [render_pages] does to each page before it is appended: the
    white background is ensured, then whitespace is cropped when
    [auto_crop] is set. *)
Definition normalize (self : PDFRenderer) (image : Image)
  : Py.Result Image :=
  processed_image <- _ensure_white_background image ;;
  if auto_crop self
  then _crop_whitespace self processed_image
  else Py.ret processed_image.

(** ** [render_pages]

    The rasterizer [convert_from_path] belongs to pdf2image and is a
    parameter.  The progress callback is any callable: what matters of it
    here is the sequence of calls it receives, kept in a log, and whether
    a call raises. *)
Definition Log : Type := list (Z * Z).
Definition Callback : Type := Z -> Z -> Py.Result unit.

(** Computations that extend the log and raise or return. *)
Definition Run (A : Type) : Type := Log -> Log * Py.Result A.

Definition rret {A} (a : A) : Run A := fun log => (log, inr a).
Definition rbind {A B} (m : Run A) (k : A -> Run B) : Run B :=
  fun log =>
    match m log with
    | (log', inl e) => (log', inl e)
    | (log', inr a) => k a log'
    end.
Definition lift {A} (m : Py.Result A) : Run A := fun log => (log, m).
Definition call (f : Callback) (current total : Z) : Run unit :=
  fun log => ((log ++ [(current, total)])%list, f current total).
Definition rtry {A} (m : Run A) (h : Py.BaseException -> Py.BaseException)
  : Run A :=
  fun log =>
    match m log with
    | (log', inl e) => (log', inl (if Py.is_Exception e then h e else e))
    | r => r
    end.

Notation "x <~ m ;; k" := (rbind m (fun x => k))
  (at level 100, m at next level, right associativity).

(** The body of the [for idx, image in enumerate(images, start=1)] loop
    and the loop itself; [processed_images] is the list built so far. *)
Fixpoint process_each (self : PDFRenderer)
    (progress_callback : option Callback) (total_pages : Z)
    (items : list (Z * Image)) (processed_images : list Image)
  : Run (list Image) :=
  match items with
  | [] => rret processed_images
  | (idx, image) :: rest =>
      processed_image <~ lift (normalize self image) ;;
      let processed_images := (processed_images ++ [processed_image])%list in
      _ <~ match progress_callback with
           | Some f => call f idx total_pages
           | None => rret tt
           end ;;
      process_each self progress_callback total_pages rest processed_images
  end.

Definition render_pages (self : PDFRenderer)
    (convert_from_path : string -> Z -> Py.Result (list Image))
    (pdf_path : string) (progress_callback : option Callback)
  : Run (list Image) :=
  rtry
    (images <~ lift (convert_from_path pdf_path (dpi self)) ;;
     let total_pages := Py.len images in
     process_each self progress_callback total_pages
                  (Py.enumerate images 1) [])
    (fun e =>
       Py.RenderingError ("Failed to render PDF pages: " ++ Py.str e)).

End Renderer.

(* ================================================================== *)
(** * [src/compositor.py]: class [ImageCompositor] *)
(* ================================================================== *)

Module Compositor.
Import PIL.
Local Open Scope py_scope.

Record ImageCompositor : Type := mkImageCompositor {
  spacing : Z;
  auto_width : bool
}.

(** [ImageCompositor.__init__] *)
Definition __init__ (spacing : Z) (auto_width : bool)
  : Py.Result ImageCompositor :=
  if spacing <? 0 then
    Py.raise (Py.ValueError
      ("Spacing must be non-negative, got " ++ Py.str_int spacing))
  else Py.ret (mkImageCompositor spacing auto_width).

(** The total height both layouts compute: the sum of the heights, plus
    the spacing between consecutive images when there are several. *)
Definition total_height_of (self : ImageCompositor) (images : list Image)
  : Z :=
  let total_height := Py.sum (map height images) in
  if 1 <? Py.len images
  then total_height + spacing self * (Py.len images - 1)
  else total_height.

(** [_calculate_canvas_size] *)
Definition _calculate_canvas_size (self : ImageCompositor)
    (images : list Image) : Py.Result (Z * Z) :=
  max_width <- Py.max (map width images) ;;
  let total_height := total_height_of self images in
  Py.ret (max_width, total_height).

(** [_find_actual_width] *)
Definition _find_actual_width (image : Image) : Z :=
  let image :=
    if negb (mode_eqb (mode image) RGB) then convert_RGB image else image in
  let pixels := load_rgb image in
  let '(width, height) := size image in
  match
    find (fun x =>
            existsb (fun y =>
                       let '(p0, p1, p2) := pixels x y in
                       negb ((250 <? p0) && (250 <? p1) && (250 <? p2)))
                    (Py.range height))
         (Py.range3 (width - 1) (-1) (-1))
  with
  | Some x => x + 1
  | None => 1
  end.

(** The paste loop of [_compose_auto_width]: every image at the left
    edge, the vertical offset advanced by its height and the spacing. *)
Fixpoint paste_left_all (self : ImageCompositor) (canvas : Image)
    (images : list Image) (y_offset : Z) : Image :=
  match images with
  | [] => canvas
  | image :: rest =>
      let canvas := paste canvas image (0, y_offset) in
      paste_left_all self canvas rest (y_offset + (height image + spacing self))
  end.

(** [_compose_auto_width] *)
Definition _compose_auto_width (self : ImageCompositor)
    (images : list Image) : Py.Result Image :=
  let total_height := total_height_of self images in
  max_width <- Py.max (map width images) ;;
  canvas <- new_RGB (max_width, total_height) (255, 255, 255) ;;
  let canvas := paste_left_all self canvas images 0 in
  let actual_width := _find_actual_width canvas in
  if actual_width <? max_width then
    crop canvas (0, 0, actual_width, total_height)
  else
    Py.ret canvas.

(** [_paste_centered] *)
Definition _paste_centered (canvas image : Image) (y_offset : Z) : Image :=
  let x_offset := (width canvas - width image) / 2 in
  paste canvas image (x_offset, y_offset).

(** The paste loop of [_compose_fixed_width]. *)
Fixpoint paste_centered_all (self : ImageCompositor) (canvas : Image)
    (images : list Image) (y_offset : Z) : Image :=
  match images with
  | [] => canvas
  | image :: rest =>
      let canvas := _paste_centered canvas image y_offset in
      paste_centered_all self canvas rest
                         (y_offset + (height image + spacing self))
  end.

(** [_compose_fixed_width] *)
Definition _compose_fixed_width (self : ImageCompositor)
    (images : list Image) : Py.Result Image :=
  '(canvas_width, canvas_height) <- _calculate_canvas_size self images ;;
  canvas <- new_RGB (canvas_width, canvas_height) (255, 255, 255) ;;
  Py.ret (paste_centered_all self canvas images 0).

(** [compose] *)
Definition compose (self : ImageCompositor) (images : list Image)
  : Py.Result Image :=
  match images with
  | [] => Py.raise (Py.CompositionError "Cannot compose empty image list")
  | _ :: _ =>
      Py.try_except
        (if auto_width self
         then _compose_auto_width self images
         else _compose_fixed_width self images)
        (fun e =>
           Py.raise (Py.CompositionError
             ("Failed to compose images: " ++ Py.str e)))
  end.

End Compositor.

(* ================================================================== *)
(** * [src/cli.py], [src/config.py], [src/output.py]: validation *)
(* ================================================================== *)

Module Cli.
Local Open Scope py_scope.

(** The fields of the parsed [argparse.Namespace]. *)
Record Namespace : Type := mkNamespace {
  input : string;
  output : option string;
  dpi : Z;
  format : string;
  quality : Z;
  spacing : Z;
  no_confirm : bool;
  fixed_width : bool;
  no_crop : bool;
  crop_margin : Z
}.

(** [validate_arguments] *)
Definition validate_arguments (args : Namespace) : Py.Result bool :=
  if negb ((72 <=? dpi args) && (dpi args <=? 300)) then
    Py.raise (Py.ValueError
      ("DPI must be between 72 and 300, got " ++ Py.str_int (dpi args)))
  else if negb ((1 <=? quality args) && (quality args <=? 100)) then
    Py.raise (Py.ValueError
      ("Quality must be between 1 and 100, got "
       ++ Py.str_int (quality args)))
  else if spacing args <? 0 then
    Py.raise (Py.ValueError
      ("Spacing must be non-negative, got " ++ Py.str_int (spacing args)))
  else if crop_margin args <? 0 then
    Py.raise (Py.ValueError
      ("Crop margin must be non-negative, got "
       ++ Py.str_int (crop_margin args)))
  else Py.ret true.

End Cli.

Module Config.

(** A [pathlib.Path], as its text.  The operations of pathlib the program
    uses ([stem], [parent], [/]) and [str.lower] belong to Python and are
    parameters of the functions that call them. *)
Definition Path : Type := string.

(** [s in items] for a list of strings. *)
Definition str_in (s : string) (items : list string) : bool :=
  existsb (String.eqb s) items.

Record ConversionConfig : Type := mkConversionConfig {
  input_path : Path;
  output_path : option Path;
  dpi : Z;
  format : string;
  quality : Z;
  spacing : Z;
  confirm_overwrite : bool;
  auto_width : bool;
  auto_crop : bool;
  crop_margin : Z
}.

(** [ConversionConfig.validate] *)
Definition validate (lower : string -> string) (self : ConversionConfig)
  : bool * string :=
  if negb ((72 <=? dpi self) && (dpi self <=? 300)) then
    (false, "DPI must be between 72 and 300, got " ++ Py.str_int (dpi self))
  else if negb (str_in (lower (format self)) ["png"; "jpeg"; "jpg"]) then
    (false, "Format must be 'png' or 'jpeg', got " ++ format self)
  else if str_in (lower (format self)) ["jpeg"; "jpg"]
          && negb ((1 <=? quality self) && (quality self <=? 100)) then
    (false, "JPEG quality must be between 1 and 100, got "
            ++ Py.str_int (quality self))
  else if spacing self <? 0 then
    (false, "Spacing must be non-negative, got " ++ Py.str_int (spacing self))
  else (true, "").

(** [ConversionConfig.get_output_path] *)
Definition get_output_path (lower : string -> string)
    (stem : Path -> string) (parent : Path -> Path)
    (joinpath : Path -> string -> Path) (self : ConversionConfig) : Path :=
  match output_path self with
  | Some p => p
  | None =>
      let input_stem := stem (input_path self) in
      let input_dir := parent (input_path self) in
      let ext := if String.eqb (lower (format self)) "jpeg"
                 then "jpg" else lower (format self) in
      joinpath input_dir (input_stem ++ "_long_screenshot." ++ ext)
  end.

End Config.

Module Output.

Record OutputGenerator : Type := mkOutputGenerator {
  format : string;
  quality : Z
}.

(** [OutputGenerator.__init__] *)
Definition __init__ (lower : string -> string) (format : string) (quality : Z)
  : Py.Result OutputGenerator :=
  let format := lower format in
  if negb (Config.str_in format ["png"; "jpeg"; "jpg"]) then
    Py.raise (Py.ValueError
      ("Format must be 'png' or 'jpeg', got '" ++ format ++ "'"))
  else if negb ((1 <=? quality) && (quality <=? 100)) then
    Py.raise (Py.ValueError
      ("Quality must be between 1 and 100, got " ++ Py.str_int quality))
  else
    Py.ret (mkOutputGenerator
              (if Config.str_in format ["jpeg"; "jpg"] then "jpeg" else format)
              quality).

(** [OutputGenerator._generate_default_output_path] *)
Definition _generate_default_output_path
    (stem : Config.Path -> string) (parent : Config.Path -> Config.Path)
    (joinpath : Config.Path -> string -> Config.Path)
    (self : OutputGenerator) (input_path : Config.Path) : Config.Path :=
  let directory := parent input_path in
  let stem := stem input_path in
  let extension := if String.eqb (format self) "png" then "png" else "jpg" in
  let output_filename := stem ++ "_long_screenshot." ++ extension in
  joinpath directory output_filename.

End Output.

(* ================================================================== *)
(** * Vocabulary of the properties *)
(* ================================================================== *)

Module Props.
Import PIL.

(** The pixel at [(x, y)] is not background: [_is_white_pixel] with its
    default threshold says no. *)
Definition content (pixels : Z -> Z -> rgb) (x y : Z) : bool :=
  negb (Renderer._is_white_pixel (pixels x y) Renderer.threshold_default).

(** The grid of the given size holds a pixel that is not background. *)
Definition has_content (pixels : Z -> Z -> rgb) (width height : Z) : Prop :=
  exists x y, 0 <= x < width /\ 0 <= y < height /\ content pixels x y = true.

(** Every pixel of the grid is background. *)
Definition blank (pixels : Z -> Z -> rgb) (width height : Z) : Prop :=
  forall x y, 0 <= x < width -> 0 <= y < height -> content pixels x y = false.

(** [(left, top, right, bottom)], right and bottom exclusive, is the
    tightest box around the content of the grid: it encloses every
    pixel that is not background, and each of its four border lines
    holds one. *)
Definition tightest_box (pixels : Z -> Z -> rgb) (width height : Z)
    (box : Z * Z * Z * Z) : Prop :=
  let '(x0, y0, x1, y1) := box in
  (forall x y, 0 <= x < width -> 0 <= y < height ->
               content pixels x y = true -> x0 <= x < x1 /\ y0 <= y < y1) /\
  (exists y, 0 <= y < height /\ content pixels x0 y = true) /\
  (exists y, 0 <= y < height /\ content pixels (x1 - 1) y = true) /\
  (exists x, 0 <= x < width /\ content pixels x y0 = true) /\
  (exists x, 0 <= x < width /\ content pixels x (y1 - 1) = true).

(** A grid with one black pixel, at [(1, 2)], on white. *)
Definition one_dot : Z -> Z -> rgb :=
  fun x y => if (x =? 1) && (y =? 2) then (0, 0, 0) else (255, 255, 255).

(** Two images have the same size and the same pixels. *)
Definition same_bitmap (a b : Image) : Prop :=
  mode a = mode b /\ size a = size b /\
  forall x y, 0 <= x < width a -> 0 <= y < height a ->
              load_rgb a x y = load_rgb b x y.

(** [out] is [flat] cropped as the specification says: the detected box
    is widened by the margin on each side and clamped to the bitmap;
    when the clamped box has a positive area [out] is that region of
    [flat]; otherwise [out] is [flat] itself; and when [flat] is all
    background, [out] has the size and the pixels of [flat]. *)
Definition cropped_with_margin (self : Renderer.PDFRenderer)
    (flat out : Image) : Prop :=
  let w := width flat in
  let h := height flat in
  let m := Renderer.crop_margin self in
  let l := Renderer._find_left_boundary (load_rgb flat) w h in
  let r := Renderer._find_right_boundary (load_rgb flat) w h in
  let t := Renderer._find_top_boundary (load_rgb flat) w h in
  let b := Renderer._find_bottom_boundary (load_rgb flat) w h in
  let x0 := Z.max 0 (l - m) in
  let x1 := Z.min w (r + m) in
  let y0 := Z.max 0 (t - m) in
  let y1 := Z.min h (b + m) in
  (0 <= x0 <= l /\ r <= x1 <= w /\ 0 <= y0 <= t /\ b <= y1 <= h) /\
  (x0 < x1 /\ y0 < y1 ->
   size out = (x1 - x0, y1 - y0) /\
   forall x y, 0 <= x < x1 - x0 -> 0 <= y < y1 - y0 ->
               load_rgb out x y = load_rgb flat (x + x0) (y + y0)) /\
  (~ (x0 < x1 /\ y0 < y1) -> out = flat) /\
  (blank (load_rgb flat) w h -> same_bitmap out flat).

(** A page of 4 by 5 pixels with one black pixel. *)
Definition dot_page : Image := ImRGB (mkRaster 4 5 one_dot eq_refl).

(** Renderers that crop, with a margin of one pixel and of none. *)
Definition margin_1 : Renderer.PDFRenderer :=
  Renderer.mkPDFRenderer 150 true 1.
Definition margin_0 : Renderer.PDFRenderer :=
  Renderer.mkPDFRenderer 150 true 0.

(** The vertical offset at which the compositor pastes the image of index
    [i]: the heights of the images before it, and a spacing after each. *)
Definition y_offset_of (self : Compositor.ImageCompositor)
    (images : list Image) (i : nat) : Z :=
  Py.sum (map (fun im => height im + Compositor.spacing self)
              (firstn i images)).

(** A paste loop with the horizontal offset of each image left open:
    both loops of the compositor are instances of it. *)
Fixpoint paste_each (x_offset : Image -> Z) (spacing : Z) (canvas : Image)
    (images : list Image) (y_offset : Z) : Image :=
  match images with
  | [] => canvas
  | image :: rest =>
      paste_each x_offset spacing
                 (paste canvas image (x_offset image, y_offset)) rest
                 (y_offset + (height image + spacing))
  end.

(** The AutoWidth layout, step by step: a white canvas of the maximal
    page width and the total height is allocated; every page is pasted
    flush left at its vertical offset; the scan from the right returns
    the rightmost column of the whole canvas that has content; [out] is
    the canvas trimmed to that width when it is narrower.  Hence [out] is
    never wider than the widest page, and is exactly as wide when a page
    has content in the last column. *)
Definition auto_width_layout (self : Compositor.ImageCompositor)
    (images : list Image) (out : Image) : Prop :=
  exists max_width blank_canvas,
    Py.max (map width images) = inr max_width /\
    new_RGB (max_width, Compositor.total_height_of self images)
            (255, 255, 255) = inr blank_canvas /\
    let canvas := Compositor.paste_left_all self blank_canvas images 0 in
    let actual_width := Compositor._find_actual_width canvas in
    width canvas = max_width /\
    height canvas = Compositor.total_height_of self images /\
    (forall i page x y,
       nth_error images i = Some page ->
       0 <= x < width page -> 0 <= y < height page ->
       load_rgb canvas x (y_offset_of self images i + y)
       = load_rgb page x y) /\
    (has_content (load_rgb canvas) (width canvas) (height canvas) ->
     0 < actual_width <= max_width /\
     (exists y, 0 <= y < height canvas /\
                content (load_rgb canvas) (actual_width - 1) y = true) /\
     (forall x y, actual_width <= x < max_width -> 0 <= y < height canvas ->
                  content (load_rgb canvas) x y = false)) /\
    width out
    = (if actual_width <? max_width then actual_width else max_width) /\
    height out = height canvas /\
    (forall x y, 0 <= x < width out -> 0 <= y < height out ->
                 load_rgb out x y = load_rgb canvas x y) /\
    width out <= max_width /\
    ((exists page y,
        In page images /\ 0 <= max_width - 1 < width page /\
        0 <= y < height page /\
        content (load_rgb page) (max_width - 1) y = true) ->
     width out = max_width).

(** The FixedWidth layout: the canvas has the maximal page width and the
    total height, and the pixels of every page are found at the
    horizontal offset [(canvas_width - page_width) // 2] and at the
    page's vertical offset. *)
Definition fixed_width_layout (self : Compositor.ImageCompositor)
    (images : list Image) (out : Image) : Prop :=
  exists canvas_width,
    Py.max (map width images) = inr canvas_width /\
    size out = (canvas_width, Compositor.total_height_of self images) /\
    forall i page x y,
      nth_error images i = Some page ->
      0 <= x < width page -> 0 <= y < height page ->
      load_rgb out ((canvas_width - width page) / 2 + x)
                   (y_offset_of self images i + y)
      = load_rgb page x y.

(** The scenario of three pages of 100 by 50, 150 by 60 and 80 by 40
    pixels without spacing: the output is 150 by 150, the first page
    starts at column 25 and the third at column 35 (and row 110). *)
Definition three_pages_centered (images : list Image) (out : Image)
  : Prop :=
  forall page1 page2 page3,
    images = [page1; page2; page3] ->
    size out = (150, 150) /\
    (forall x y, 0 <= x < 100 -> 0 <= y < 50 ->
                 load_rgb out (25 + x) y = load_rgb page1 x y) /\
    (forall x y, 0 <= x < 80 -> 0 <= y < 40 ->
                 load_rgb out (35 + x) (110 + y) = load_rgb page3 x y).

(** Pages filled with one colour. *)
Definition solid (w h : N) (color : rgb) (H : fits w h = true) : Image :=
  ImRGB (mkRaster w h (fun _ _ => color) H).

Definition red_green_blue : list Image :=
  [solid 100 50 (255, 0, 0) eq_refl; solid 150 60 (0, 255, 0) eq_refl;
   solid 80 40 (0, 0, 255) eq_refl].

(** Two white pages, 3 by 2 and 5 by 4 pixels. *)
Definition white_pages : list Image :=
  [solid 3 2 (255, 255, 255) eq_refl; solid 5 4 (255, 255, 255) eq_refl].

Definition stack_auto : Compositor.ImageCompositor :=
  Compositor.mkImageCompositor 0 true.
Definition stack_fixed : Compositor.ImageCompositor :=
  Compositor.mkImageCompositor 0 false.

(** [pages] are the [images], normalized one by one in order. *)
Definition normalized (self : Renderer.PDFRenderer)
    (images pages : list Image) : Prop :=
  Forall2 (fun im out => Renderer.normalize self im = inr out) images pages.

(** A rasterizer that returns two pages, and a callback that returns. *)
Definition two_pages : string -> Z -> Py.Result (list Image) :=
  fun _ _ => inr [dot_page; dot_page].
Definition quiet : Renderer.Callback := fun _ _ => inr tt.

(** The log of a progress callback called once per page, in order. *)
Definition progress_log (total : Z) : list (Z * Z) :=
  map (fun idx => (idx, total)) (Py.range3 1 (total + 1) 1).

(** A rasterizer that fails, and a callback that raises at the second
    page. *)
Definition corrupt_pdf : string -> Z -> Py.Result (list Image) :=
  fun _ _ => inl (Py.ValueError "Unable to get page count").
Definition raises_at_2 : Renderer.Callback :=
  fun current _ =>
    if current =? 2 then inl (Py.ValueError "stop") else inr tt.

(** A rasterizer and a callback interrupted from the keyboard. *)
Definition interrupted_pdf : string -> Z -> Py.Result (list Image) :=
  fun _ _ => inl (Py.KeyboardInterrupt "").
Definition interrupt_at_2 : Renderer.Callback :=
  fun current _ =>
    if current =? 2 then inl (Py.KeyboardInterrupt "") else inr tt.

(** A page of 2 by 2 pixels with an alpha band: red, opaque in the first
    column and transparent in the second. *)
Definition half_clear : Raster rgba :=
  mkRaster 2 2 (fun x _ => if x =? 0 then (200, 10, 10, 255)
                           else (200, 10, 10, 0)) eq_refl.

(** The band values of the pixel are 8-bit. *)
Definition is_8bit (v : Z) : Prop := 0 <= v <= 255.

(** [out] shows every pixel of [image] that is not background, shifted by
    [(x0, y0)]. *)
Definition keeps_content (image out : Image) (x0 y0 : Z) : Prop :=
  forall x y,
    0 <= x < width image -> 0 <= y < height image ->
    content (load_rgb image) x y = true ->
    0 <= x - x0 < width out /\ 0 <= y - y0 < height out /\
    load_rgb out (x - x0) (y - y0) = load_rgb image x y.

(** [out] is, for each source page, an ['RGB'] page that is no larger. *)
Definition rgb_and_no_larger (images pages : list Image) : Prop :=
  Forall2 (fun im out => mode out = RGB /\ width out <= width im /\
                         height out <= height im) images pages.

(** The rows of the composed image, page by page: in the rows of the
    page of index [i] the columns from [x_offset page] on show the page and
    the other columns are white; the rows of the spacing after a page are
    white. *)
Definition rows_of_pages (self : Compositor.ImageCompositor)
    (images : list Image) (x_offset : Image -> Z) (out : Image) : Prop :=
  forall i page x y,
    nth_error images i = Some page ->
    0 <= x < width out ->
    (0 <= y < height page ->
     load_rgb out x (y_offset_of self images i + y)
     = if (x_offset page <=? x) && (x <? x_offset page + width page)
       then load_rgb page (x - x_offset page) y
       else (255, 255, 255)) /\
    (height page <= y < height page + Compositor.spacing self ->
     y_offset_of self images i + y < height out ->
     load_rgb out x (y_offset_of self images i + y) = (255, 255, 255)).

(** No pixel with content of any page lies beyond the width of [out]. *)
Definition no_content_cut (images : list Image) (out : Image) : Prop :=
  forall page x y,
    In page images -> 0 <= x < width page -> 0 <= y < height page ->
    content (load_rgb page) x y = true -> x < width out.

(** Spaced compositors, and a page whose last column has content. *)
Definition spaced_auto : Compositor.ImageCompositor :=
  Compositor.mkImageCompositor 10 true.
Definition spaced_fixed : Compositor.ImageCompositor :=
  Compositor.mkImageCompositor 10 false.
Definition red_page : Image := solid 100 50 (255, 0, 0) eq_refl.

(** [str.lower] on ASCII text, and stand-ins for the pathlib operations,
    on paths written [dir/name.ext] without further separators or dots. *)
Definition lower_char (c : Ascii.ascii) : Ascii.ascii :=
  let n := Ascii.nat_of_ascii c in
  if (Nat.leb 65 n && Nat.leb n 90)%bool
  then Ascii.ascii_of_nat (n + 32) else c.

Fixpoint ascii_lower (s : string) : string :=
  match s with
  | EmptyString => EmptyString
  | String c rest => String (lower_char c) (ascii_lower rest)
  end.

Fixpoint before (sep : Ascii.ascii) (s : string) : string :=
  match s with
  | EmptyString => EmptyString
  | String c rest =>
      if Ascii.eqb c sep then EmptyString else String c (before sep rest)
  end.

Fixpoint after (sep : Ascii.ascii) (s : string) : string :=
  match s with
  | EmptyString => EmptyString
  | String c rest => if Ascii.eqb c sep then rest else after sep rest
  end.

Definition slash : Ascii.ascii := Ascii.ascii_of_nat 47.
Definition dot : Ascii.ascii := Ascii.ascii_of_nat 46.
Definition simple_parent (p : Config.Path) : Config.Path := before slash p.
Definition simple_stem (p : Config.Path) : string :=
  before dot (after slash p).
Definition simple_join (d : Config.Path) (name : string) : Config.Path :=
  d ++ "/" ++ name.

(** Arguments and a configuration with the defaults of the command line,
    for JPEG output. *)
Definition default_args : Cli.Namespace :=
  Cli.mkNamespace "in/doc.pdf" None 150 "JPEG" 85 0 false false false 10.
Definition default_config : Config.ConversionConfig :=
  Config.mkConversionConfig "in/doc.pdf" None 150 "JPEG" 85 0 true true true 10.

(** What [ConversionConfig.validate] checks. *)
Definition config_in_range (lower : string -> string)
    (cfg : Config.ConversionConfig) : Prop :=
  72 <= Config.dpi cfg <= 300 /\
  (lower (Config.format cfg) = "png" \/
   (lower (Config.format cfg) = "jpeg" \/ lower (Config.format cfg) = "jpg")
   /\ 1 <= Config.quality cfg <= 100) /\
  0 <= Config.spacing cfg.

(** A white canvas of 200 by 100 pixels, and a green image of 100 by 50
    pixels to paste on it. *)
Definition white_canvas : Raster rgb :=
  mkRaster 200 100 (fun _ _ => (255, 255, 255)) eq_refl.
Definition green_patch : Image := solid 100 50 (0, 255, 0) eq_refl.

(** Compositors with a spacing of [2^31] pixels, which the constructor
    and the command line accept, and two white pages of one pixel. *)
Definition far_apart_auto : Compositor.ImageCompositor :=
  Compositor.mkImageCompositor 2147483648 true.
Definition far_apart_fixed : Compositor.ImageCompositor :=
  Compositor.mkImageCompositor 2147483648 false.
Definition two_white_dots : list Image :=
  [solid 1 1 (255, 255, 255) eq_refl; solid 1 1 (255, 255, 255) eq_refl].

(** The canvas for the images fits Pillow: its height is within a C
    [int] (its width, that of a page, always is) and, under the AutoWidth
    policy, which may trim the canvas with [crop], it has no more pixels
    than the guard of [crop] lets pass. *)
Definition canvas_fits (self : Compositor.ImageCompositor)
    (images : list Image) : Prop :=
  let total_height :=
    Py.sum (map height images)
    + Compositor.spacing self * (Py.len images - 1) in
  total_height <= INT_MAX /\
  (Compositor.auto_width self = true ->
   forall max_width, Py.max (map width images) = inr max_width ->
     max_width * total_height <= 2 * MAX_IMAGE_PIXELS).

End Props.

(* ================================================================== *)
(** * Ranges and first-match scans *)
(* ================================================================== *)

Section Ranges.

Lemma count_from_up_In (n : nat) : forall start x,
  In x (Py.count_from start 1 n) <-> start <= x < start + Z.of_nat n.
Proof.
  induction n as [|k IH]; intros start x; simpl.
  - lia.
  - rewrite IH. lia.
Qed.

Lemma count_from_down_In (n : nat) : forall start x,
  In x (Py.count_from start (-1) n) <-> start - Z.of_nat n < x <= start.
Proof.
  induction n as [|k IH]; intros start x; simpl.
  - lia.
  - rewrite IH. lia.
Qed.

Lemma range_unfold (stop : Z) :
  Py.range stop = Py.count_from 0 1 (Z.to_nat stop).
Proof.
  unfold Py.range, Py.range3. simpl.
  replace (stop - 0 + 1 - 1) with stop by lia.
  now rewrite Z.div_1_r.
Qed.

Lemma range_down_unfold (stop : Z) :
  Py.range3 (stop - 1) (-1) (-1) = Py.count_from (stop - 1) (-1) (Z.to_nat stop).
Proof.
  unfold Py.range3. simpl.
  replace (stop - 1 - -1 - -1 - 1) with stop by lia.
  now rewrite Z.div_1_r.
Qed.

Lemma range_In (stop x : Z) : In x (Py.range stop) <-> 0 <= x < stop.
Proof. rewrite range_unfold, count_from_up_In. lia. Qed.

Lemma range_down_In (stop x : Z) :
  In x (Py.range3 (stop - 1) (-1) (-1)) <-> 0 <= x < stop.
Proof. rewrite range_down_unfold, count_from_down_In. lia. Qed.

Variable p : Z -> bool.

(** An ascending scan stops at the least index that satisfies [p]. *)
Lemma find_up_some (n : nat) : forall start x,
  find p (Py.count_from start 1 n) = Some x ->
  p x = true /\ start <= x < start + Z.of_nat n /\
  forall z, start <= z < x -> p z = false.
Proof.
  induction n as [|k IH]; intros start x; simpl; [discriminate|].
  destruct (p start) eqn:Hp.
  - intros [= <-]. repeat split; try lia; auto.
  - intros H. apply IH in H as (Hx & Hr & Hl).
    repeat split; try lia; auto.
    intros z Hz. destruct (Z.eq_dec z start) as [->|]; auto.
    apply Hl. lia.
Qed.

(** A descending scan stops at the greatest index that satisfies [p]. *)
Lemma find_down_some (n : nat) : forall start x,
  find p (Py.count_from start (-1) n) = Some x ->
  p x = true /\ start - Z.of_nat n < x <= start /\
  forall z, x < z <= start -> p z = false.
Proof.
  induction n as [|k IH]; intros start x; simpl; [discriminate|].
  destruct (p start) eqn:Hp.
  - intros [= <-]. repeat split; try lia; auto.
  - intros H. apply IH in H as (Hx & Hr & Hl).
    repeat split; try lia; auto.
    intros z Hz. destruct (Z.eq_dec z start) as [->|]; auto.
    apply Hl. lia.
Qed.

Lemma find_range_some (stop x : Z) :
  find p (Py.range stop) = Some x ->
  p x = true /\ 0 <= x < stop /\ forall z, 0 <= z < x -> p z = false.
Proof.
  rewrite range_unfold. intros H.
  apply find_up_some in H as (Hx & Hr & Hl). repeat split; auto; lia.
Qed.

Lemma find_range_down_some (stop x : Z) :
  find p (Py.range3 (stop - 1) (-1) (-1)) = Some x ->
  p x = true /\ 0 <= x < stop /\ forall z, x < z < stop -> p z = false.
Proof.
  rewrite range_down_unfold. intros H.
  apply find_down_some in H as (Hx & Hr & Hl). repeat split; try lia; auto.
  intros z Hz. apply Hl. lia.
Qed.

Lemma find_range_none (stop : Z) :
  find p (Py.range stop) = None ->
  forall z, 0 <= z < stop -> p z = false.
Proof.
  intros H z Hz. apply (find_none _ _ H). now apply range_In.
Qed.

Lemma find_range_down_none (stop : Z) :
  find p (Py.range3 (stop - 1) (-1) (-1)) = None ->
  forall z, 0 <= z < stop -> p z = false.
Proof.
  intros H z Hz. apply (find_none _ _ H). now apply range_down_In.
Qed.

Lemma existsb_range (stop : Z) :
  existsb p (Py.range stop) = true <-> exists z, 0 <= z < stop /\ p z = true.
Proof.
  rewrite existsb_exists. split; intros (z & Hz & Hp); exists z; split; auto;
    now apply range_In.
Qed.

Lemma existsb_range_false (stop : Z) :
  existsb p (Py.range stop) = false <->
  forall z, 0 <= z < stop -> p z = false.
Proof.
  split.
  - intros H z Hz. destruct (p z) eqn:Hp; auto.
    assert (existsb p (Py.range stop) = true) by (apply existsb_range; eauto).
    congruence.
  - intros H. destruct (existsb p (Py.range stop)) eqn:E; auto.
    apply existsb_range in E as (z & Hz & Hp). rewrite H in Hp; auto.
Qed.

End Ranges.

(* ================================================================== *)
(** * Boundary detection *)
(* ================================================================== *)

Lemma is_white_pixel_spec (p0 p1 p2 threshold : Z) :
  Renderer._is_white_pixel (p0, p1, p2) threshold = true <->
  threshold < p0 /\ threshold < p1 /\ threshold < p2.
Proof.
  unfold Renderer._is_white_pixel. rewrite !andb_true_iff, !Z.ltb_lt. tauto.
Qed.

Section Boundaries.
Import PIL Renderer Props.

Variable pixels : Z -> Z -> rgb.
Variables width height : Z.

Lemma column_has_content_true (x : Z) :
  column_has_content pixels height x = true <->
  exists y, 0 <= y < height /\ content pixels x y = true.
Proof. unfold column_has_content. apply existsb_range. Qed.

Lemma column_has_content_false (x : Z) :
  column_has_content pixels height x = false <->
  forall y, 0 <= y < height -> content pixels x y = false.
Proof. unfold column_has_content. apply existsb_range_false. Qed.

Lemma row_has_content_true (y : Z) :
  row_has_content pixels width y = true <->
  exists x, 0 <= x < width /\ content pixels x y = true.
Proof. unfold row_has_content. apply existsb_range. Qed.

Lemma row_has_content_false (y : Z) :
  row_has_content pixels width y = false <->
  forall x, 0 <= x < width -> content pixels x y = false.
Proof. unfold row_has_content. apply existsb_range_false. Qed.

(** With no content each scan falls through to its default. *)
Lemma blank_content_box :
  blank pixels width height ->
  content_box pixels width height = (0, 0, width, height).
Proof.
  intros Hb.
  assert (Hc : forall x, 0 <= x < width ->
               column_has_content pixels height x = false).
  { intros x Hx. apply column_has_content_false. auto. }
  assert (Hr : forall y, 0 <= y < height ->
               row_has_content pixels width y = false).
  { intros y Hy. apply row_has_content_false. auto. }
  unfold content_box, _find_left_boundary, _find_right_boundary,
    _find_top_boundary, _find_bottom_boundary.
  destruct (find _ (Py.range width)) eqn:E1.
  { apply find_range_some in E1 as (E1 & Hx & _). rewrite Hc in E1; easy. }
  destruct (find _ (Py.range3 (width - 1) _ _)) eqn:E2.
  { apply find_range_down_some in E2 as (E2 & Hx & _).
    rewrite Hc in E2; easy. }
  destruct (find _ (Py.range height)) eqn:E3.
  { apply find_range_some in E3 as (E3 & Hy & _). rewrite Hr in E3; easy. }
  destruct (find _ (Py.range3 (height - 1) _ _)) eqn:E4.
  { apply find_range_down_some in E4 as (E4 & Hy & _).
    rewrite Hr in E4; easy. }
  reflexivity.
Qed.

Hypothesis some_content : has_content pixels width height.

Lemma left_boundary_spec :
  let l := _find_left_boundary pixels width height in
  0 <= l < width /\ column_has_content pixels height l = true /\
  forall x, 0 <= x < l -> column_has_content pixels height x = false.
Proof.
  unfold _find_left_boundary.
  destruct (find _ _) as [x|] eqn:E; cbv zeta.
  - apply find_range_some in E. tauto.
  - destruct some_content as (x & y & Hx & Hy & Hc).
    pose proof (find_range_none _ _ E x Hx) as Hn.
    apply column_has_content_false with (y := y) in Hn; auto. congruence.
Qed.

Lemma right_boundary_spec :
  let r := _find_right_boundary pixels width height in
  0 < r <= width /\ column_has_content pixels height (r - 1) = true /\
  forall x, r <= x < width -> column_has_content pixels height x = false.
Proof.
  unfold _find_right_boundary.
  destruct (find _ _) as [x|] eqn:E; cbv zeta.
  - apply find_range_down_some in E as (Hx & Hr & Hl).
    replace (x + 1 - 1) with x by lia. repeat split; try lia; auto.
    intros z Hz. apply Hl. lia.
  - destruct some_content as (x & y & Hx & Hy & Hc).
    pose proof (find_range_down_none _ _ E x Hx) as Hn.
    apply column_has_content_false with (y := y) in Hn; auto. congruence.
Qed.

Lemma top_boundary_spec :
  let t := _find_top_boundary pixels width height in
  0 <= t < height /\ row_has_content pixels width t = true /\
  forall y, 0 <= y < t -> row_has_content pixels width y = false.
Proof.
  unfold _find_top_boundary.
  destruct (find _ _) as [y|] eqn:E; cbv zeta.
  - apply find_range_some in E. tauto.
  - destruct some_content as (x & y & Hx & Hy & Hc).
    pose proof (find_range_none _ _ E y Hy) as Hn.
    apply row_has_content_false with (x := x) in Hn; auto. congruence.
Qed.

Lemma bottom_boundary_spec :
  let b := _find_bottom_boundary pixels width height in
  0 < b <= height /\ row_has_content pixels width (b - 1) = true /\
  forall y, b <= y < height -> row_has_content pixels width y = false.
Proof.
  unfold _find_bottom_boundary.
  destruct (find _ _) as [y|] eqn:E; cbv zeta.
  - apply find_range_down_some in E as (Hy & Hr & Hl).
    replace (y + 1 - 1) with y by lia. repeat split; try lia; auto.
    intros z Hz. apply Hl. lia.
  - destruct some_content as (x & y & Hx & Hy & Hc).
    pose proof (find_range_down_none _ _ E y Hy) as Hn.
    apply row_has_content_false with (x := x) in Hn; auto. congruence.
Qed.

(** All content lies inside the box. *)
Lemma content_inside_box (x y : Z) :
  0 <= x < width -> 0 <= y < height -> content pixels x y = true ->
  _find_left_boundary pixels width height <= x
    < _find_right_boundary pixels width height /\
  _find_top_boundary pixels width height <= y
    < _find_bottom_boundary pixels width height.
Proof.
  intros Hx Hy Hc.
  destruct left_boundary_spec as (Hl & _ & Hl').
  destruct right_boundary_spec as (Hr & _ & Hr').
  destruct top_boundary_spec as (Ht & _ & Ht').
  destruct bottom_boundary_spec as (Hb & _ & Hb').
  assert (Hcol : column_has_content pixels height x = true)
    by (apply column_has_content_true; eauto).
  assert (Hrow : row_has_content pixels width y = true)
    by (apply row_has_content_true; eauto).
  repeat split.
  - destruct (Z_le_gt_dec (_find_left_boundary pixels width height) x); auto.
    rewrite Hl' in Hcol by lia. discriminate.
  - destruct (Z_lt_le_dec x (_find_right_boundary pixels width height)); auto.
    rewrite Hr' in Hcol by lia. discriminate.
  - destruct (Z_le_gt_dec (_find_top_boundary pixels width height) y); auto.
    rewrite Ht' in Hrow by lia. discriminate.
  - destruct (Z_lt_le_dec y (_find_bottom_boundary pixels width height)); auto.
    rewrite Hb' in Hrow by lia. discriminate.
Qed.

End Boundaries.

(** C3. A pixel is background exactly when its three channels are all
    strictly above the threshold 250; on a bitmap with at least one pixel
    that is not background, the four scans return the tightest box
    [(left, top, right, bottom)], right and bottom exclusive: every
    non-background pixel lies inside it, and column [left], column
    [right - 1], row [top] and row [bottom - 1] each hold a non-background
    pixel. *)
Theorem content_box_tightest (pixels : Z -> Z -> PIL.rgb) (width height : Z) :
  Props.has_content pixels width height ->
  (forall p0 p1 p2,
     Renderer._is_white_pixel (p0, p1, p2) Renderer.threshold_default = true
     <-> 250 < p0 /\ 250 < p1 /\ 250 < p2) /\
  Props.tightest_box pixels width height
    (Renderer.content_box pixels width height).
Proof.
  intros Hc. split.
  - intros p0 p1 p2. exact (is_white_pixel_spec p0 p1 p2 250).
  - unfold Props.tightest_box, Renderer.content_box.
    destruct (left_boundary_spec _ _ _ Hc) as (_ & Hl & _).
    destruct (right_boundary_spec _ _ _ Hc) as (_ & Hr & _).
    destruct (top_boundary_spec _ _ _ Hc) as (_ & Ht & _).
    destruct (bottom_boundary_spec _ _ _ Hc) as (_ & Hb & _).
    split; [intros x y; now apply content_inside_box|].
    rewrite <- !column_has_content_true, <- !row_has_content_true. auto.
Qed.

Lemma content_box_tightest_witness :
  Props.has_content Props.one_dot 4 5 /\
  Props.tightest_box Props.one_dot 4 5 (Renderer.content_box Props.one_dot 4 5).
Proof.
  assert (H : Props.has_content Props.one_dot 4 5).
  { exists 1, 2. repeat split; try lia; reflexivity. }
  split; [exact H | apply (content_box_tightest Props.one_dot 4 5 H)].
Defined.

(* ================================================================== *)
(** * Pillow operations *)
(* ================================================================== *)

Section Pillow.
Import PIL.

Lemma width_nonneg (im : Image) : 0 <= width im.
Proof. destruct im; simpl; lia. Qed.

Lemma height_nonneg (im : Image) : 0 <= height im.
Proof. destruct im; simpl; lia. Qed.

Lemma inside_true (w h x y : Z) :
  inside w h x y = true <-> 0 <= x < w /\ 0 <= y < h.
Proof.
  unfold inside. rewrite !andb_true_iff, !Z.leb_le, !Z.ltb_lt. lia.
Qed.

Lemma inside_false (w h x y : Z) :
  inside w h x y = false <-> ~ (0 <= x < w /\ 0 <= y < h).
Proof.
  rewrite <- inside_true. destruct (inside w h x y); split; congruence.
Qed.

(** The conversion both scanning functions start with leaves the size
    and the RGB pixels as they are and yields an ['RGB'] image; an
    ['RGB'] image is not touched. *)
Lemma convert_if_needed (image : Image) :
  let im := if negb (mode_eqb (mode image) RGB)
            then convert_RGB image else image in
  mode im = RGB /\ width im = width image /\ height im = height image /\
  load_rgb im = load_rgb image /\ (mode image = RGB -> im = image).
Proof.
  destruct image as [r|r|r]; simpl; repeat split; auto; discriminate.
Qed.

(** The test on the size that [Image.new] and [crop] make, when it
    passes and when it fails. *)
Lemma checked_true {T} (c : bool) :
  forall (f : c = true -> T) (g : c = false -> T),
    c = true ->
    exists H, (if c as b return (c = b -> T) then f else g) eq_refl = f H.
Proof. destruct c; intros f g Hc; [exists eq_refl; reflexivity|discriminate]. Qed.

Lemma checked_false {T} (c : bool) :
  forall (f : c = true -> T) (bad : T),
    c = false ->
    (if c as b return (c = b -> T) then f else fun _ => bad) eq_refl = bad.
Proof. destruct c; intros f bad Hc; [discriminate|reflexivity]. Qed.

Lemma if_fits_true {T} (w h : N) (ok : fits w h = true -> T) (bad : T) :
  fits w h = true -> exists H, if_fits w h ok bad = ok H.
Proof.
  intros Hf. exact (checked_true (fits w h) ok (fun _ => bad) Hf).
Qed.

Lemma if_fits_false {T} (w h : N) (ok : fits w h = true -> T) (bad : T) :
  fits w h = false -> if_fits w h ok bad = bad.
Proof.
  intros Hf. exact (checked_false (fits w h) ok bad Hf).
Qed.

Lemma fits_true (w h : N) :
  fits w h = true <-> Z.of_N w <= INT_MAX /\ Z.of_N h <= INT_MAX.
Proof. unfold fits. rewrite andb_true_iff, !Z.leb_le. tauto. Qed.

(** Every image fits the core. *)
Lemma size_le_int_max (im : Image) :
  width im <= INT_MAX /\ height im <= INT_MAX.
Proof. destruct im as [r|r|r]; simpl; apply fits_true, size_fits. Qed.

Lemma new_RGB_ok (w h : Z) (color : rgb) :
  0 <= w <= INT_MAX -> 0 <= h <= INT_MAX ->
  exists canvas,
    new_RGB (w, h) color = inr (ImRGB canvas) /\
    Z.of_N (cols canvas) = w /\ Z.of_N (rows canvas) = h /\
    forall x y, at_ canvas x y = color.
Proof.
  intros Hw Hh. unfold new_RGB.
  destruct (Z.ltb_spec w 0); [lia|]. destruct (Z.ltb_spec h 0); [lia|].
  cbn [orb].
  assert (Hf : fits (Z.to_N w) (Z.to_N h) = true)
    by (apply fits_true; rewrite !Z2N.id; lia).
  match goal with
  | |- context [if_fits ?a ?b ?f ?g] =>
      destruct (if_fits_true a b f g Hf) as (H' & ->)
  end.
  eexists. split; [reflexivity|]. cbn [cols rows at_].
  rewrite !Z2N.id by lia. auto.
Qed.

(** Beyond a C [int] the allocation raises. *)
Lemma new_RGB_overflow (w h : Z) (color : rgb) :
  0 <= w -> 0 <= h -> INT_MAX < w \/ INT_MAX < h ->
  new_RGB (w, h) color
  = inl (c_int_overflow (if INT_MAX <? w then w else h)).
Proof.
  intros Hw Hh Hbig. unfold new_RGB.
  destruct (Z.ltb_spec w 0); [lia|]. destruct (Z.ltb_spec h 0); [lia|].
  cbn [orb].
  assert (Hf : fits (Z.to_N w) (Z.to_N h) = false).
  { destruct (fits (Z.to_N w) (Z.to_N h)) eqn:E; auto.
    apply fits_true in E. rewrite !Z2N.id in E; lia. }
  now rewrite if_fits_false.
Qed.

(** A crop to a box inside the image succeeds. *)
Lemma crop_ok (im : Image) (x0 y0 x1 y1 : Z) :
  0 <= x0 <= x1 -> x1 <= width im -> 0 <= y0 <= y1 -> y1 <= height im ->
  exists out,
    crop im (x0, y0, x1, y1) = inr out /\ mode out = RGB /\
    width out = x1 - x0 /\ height out = y1 - y0 /\
    forall x y, 0 <= x + x0 < width im -> 0 <= y + y0 < height im ->
                load_rgb out x y = load_rgb im (x + x0) (y + y0).
Proof.
  intros Hx Hxw Hy Hyh. unfold crop.
  destruct (size_le_int_max im) as (Hwm & Hhm).
  destruct (Z.ltb_spec x1 x0); [lia|]. destruct (Z.ltb_spec y1 y0); [lia|].
  assert (Hf : fits (Z.to_N (x1 - x0)) (Z.to_N (y1 - y0)) = true)
    by (apply fits_true; rewrite !Z2N.id; lia).
  match goal with
  | |- context [if_fits ?a ?b ?f ?g] =>
      destruct (if_fits_true a b f g Hf) as (H' & ->)
  end.
  eexists. split; [reflexivity|]. cbn [mode width height cols rows].
  split; [reflexivity|]. split; [rewrite Z2N.id; lia|].
  split; [rewrite Z2N.id; lia|].
  intros x y Hx' Hy'. cbn [load_rgb at_].
  assert (E : inside (width im) (height im) (x + x0) (y + y0) = true)
    by (apply inside_true; lia).
  now rewrite E.
Qed.

Lemma paste_size (canvas image : Image) (pos : Z * Z) :
  width (paste canvas image pos) = width canvas /\
  height (paste canvas image pos) = height canvas /\
  mode (paste canvas image pos) = mode canvas.
Proof. destruct pos, canvas; simpl; auto. Qed.

Lemma paste_load (c : Raster rgb) (image : Image) (x0 y0 x y : Z) :
  load_rgb (paste (ImRGB c) image (x0, y0)) x y =
  if inside (width image) (height image) (x - x0) (y - y0)
  then load_rgb image (x - x0) (y - y0)
  else load_rgb (ImRGB c) x y.
Proof. reflexivity. Qed.

End Pillow.

(* ================================================================== *)
(** * Page normalization *)
(* ================================================================== *)

Section Normalization.
Import PIL Renderer Props.

(** Flattening never fails, yields an ['RGB'] image of the same size,
    and hands an ['RGB'] image back as it is. *)
Lemma ensure_white_background_ok (image : Image) :
  exists flat,
    _ensure_white_background image = inr flat /\ mode flat = RGB /\
    width flat = width image /\ height flat = height image /\
    (mode image = RGB -> flat = image).
Proof.
  destruct image as [r|r|r]; unfold _ensure_white_background.
  - eexists; repeat split; reflexivity.
  - pose proof (proj1 (fits_true _ _) (size_fits r)) as (Hcm & Hrm).
    destruct (new_RGB_ok (Z.of_N (cols r)) (Z.of_N (rows r)) (255, 255, 255))
      as (c & E & Hw & Hh & _); try lia.
    unfold size, width, height. rewrite E.
    eexists; split; [reflexivity|]. simpl.
    repeat split; auto; discriminate.
  - eexists; split; [reflexivity|]. simpl.
    repeat split; auto; discriminate.
Qed.

Variable self : PDFRenderer.
Variable image : Image.

(** [_crop_whitespace] returns the crop to the clamped box when that box
    is not empty, and the image itself otherwise. *)
Lemma crop_whitespace_cases :
  let w := width image in
  let h := height image in
  let m := crop_margin self in
  let x0 := Z.max 0 (_find_left_boundary (load_rgb image) w h - m) in
  let x1 := Z.min w (_find_right_boundary (load_rgb image) w h + m) in
  let y0 := Z.max 0 (_find_top_boundary (load_rgb image) w h - m) in
  let y1 := Z.min h (_find_bottom_boundary (load_rgb image) w h + m) in
  _crop_whitespace self image =
  let im := if negb (mode_eqb (mode image) RGB)
            then convert_RGB image else image in
  if (x0 <? x1) && (y0 <? y1) then crop im (x0, y0, x1, y1) else inr im.
Proof.
  intros w h m x0 x1 y0 y1.
  unfold _crop_whitespace, x0, x1, y0, y1, m, w, h.
  destruct (convert_if_needed image) as (_ & Hw & Hh & Hl & _).
  cbv zeta in *. unfold size. rewrite Hw, Hh, Hl. reflexivity.
Qed.

Lemma crop_whitespace_ok :
  let w := width image in
  let h := height image in
  let m := crop_margin self in
  let x0 := Z.max 0 (_find_left_boundary (load_rgb image) w h - m) in
  let x1 := Z.min w (_find_right_boundary (load_rgb image) w h + m) in
  let y0 := Z.max 0 (_find_top_boundary (load_rgb image) w h - m) in
  let y1 := Z.min h (_find_bottom_boundary (load_rgb image) w h + m) in
  exists out,
    _crop_whitespace self image = inr out /\ mode out = RGB /\
    (x0 < x1 /\ y0 < y1 ->
     width out = x1 - x0 /\ height out = y1 - y0 /\
     forall x y, 0 <= x < x1 - x0 -> 0 <= y < y1 - y0 ->
                 load_rgb out x y = load_rgb image (x + x0) (y + y0)) /\
    (~ (x0 < x1 /\ y0 < y1) ->
     width out = w /\ height out = h /\ load_rgb out = load_rgb image /\
     (mode image = RGB -> out = image)).
Proof.
  intros w h m x0 x1 y0 y1.
  pose proof crop_whitespace_cases as Hcases. cbv zeta in Hcases.
  fold w h m x0 x1 y0 y1 in Hcases. rewrite Hcases. clear Hcases.
  destruct (convert_if_needed image) as (Hm & Hw & Hh & Hl & Hid).
  cbv zeta in *.
  set (im := if negb (mode_eqb (mode image) RGB)
             then convert_RGB image else image) in *.
  destruct (Z.ltb_spec x0 x1) as [Hx|Hx]; simpl.
  - destruct (Z.ltb_spec y0 y1) as [Hy|Hy].
    + destruct (crop_ok im x0 y0 x1 y1) as (out & E & Hmo & Hwo & Hho & Hpx);
        try lia.
      exists out. split; [exact E|]. split; [exact Hmo|]. split; [|tauto].
      intros _. split; [exact Hwo|]. split; [exact Hho|].
      intros x y Hx' Hy'. rewrite Hpx, Hl; auto.
      * rewrite Hw. subst x0 x1 w. lia.
      * rewrite Hh. subst y0 y1 h. lia.
    + exists im. split; [reflexivity|]. split; [exact Hm|].
      split; [lia|]. intros _. auto.
  - exists im. split; [reflexivity|]. split; [exact Hm|].
    split; [lia|]. intros _. auto.
Qed.

End Normalization.

Section CropBox.
Import PIL Renderer Props.

(** Where the four scans can land, content or not. *)
Lemma boundaries_in_range (pixels : Z -> Z -> rgb) (w h : Z) :
  0 <= w -> 0 <= h ->
  0 <= _find_left_boundary pixels w h /\
  _find_right_boundary pixels w h <= w /\
  0 <= _find_top_boundary pixels w h /\
  _find_bottom_boundary pixels w h <= h.
Proof.
  intros Hw Hh.
  unfold _find_left_boundary, _find_right_boundary, _find_top_boundary,
    _find_bottom_boundary.
  repeat split.
  - destruct (find _ _) eqn:E; [apply find_range_some in E|]; lia.
  - destruct (find _ _) eqn:E; [apply find_range_down_some in E|]; lia.
  - destruct (find _ _) eqn:E; [apply find_range_some in E|]; lia.
  - destruct (find _ _) eqn:E; [apply find_range_down_some in E|]; lia.
Qed.

Lemma crop_whitespace_cropped (self : PDFRenderer) (flat : Image) :
  0 <= crop_margin self -> mode flat = RGB ->
  exists out,
    _crop_whitespace self flat = inr out /\ mode out = RGB /\
    cropped_with_margin self flat out.
Proof.
  intros Hm Hrgb.
  destruct (crop_whitespace_ok self flat) as (out & E & Hmo & Hcrop & Hkeep).
  destruct (boundaries_in_range (load_rgb flat) (width flat) (height flat)
              (width_nonneg flat) (height_nonneg flat))
    as (Hl & Hr & Ht & Hb).
  exists out. split; [exact E|]. split; [exact Hmo|].
  unfold cropped_with_margin. cbv zeta.
  split; [lia|]. split; [|split].
  - intros Hbox. destruct (Hcrop Hbox) as (Hw & Hh & Hpx).
    unfold size. rewrite Hw, Hh. auto.
  - intros Hbox. now apply Hkeep.
  - intros Hblank.
    pose proof (blank_content_box _ _ _ Hblank) as Hbx.
    unfold content_box in Hbx. injection Hbx as El Et Er Eb.
    rewrite El, Et, Er, Eb in Hcrop, Hkeep.
    replace (Z.max 0 (0 - crop_margin self)) with 0 in * by lia.
    replace (Z.min (width flat) (width flat + crop_margin self))
      with (width flat) in * by lia.
    replace (Z.min (height flat) (height flat + crop_margin self))
      with (height flat) in * by lia.
    unfold same_bitmap. rewrite Hmo, Hrgb. split; [reflexivity|].
    destruct (Z_lt_dec 0 (width flat)) as [Hw|Hw];
      [destruct (Z_lt_dec 0 (height flat)) as [Hh|Hh]|].
    + destruct Hcrop as (Ew & Eh & Hpx); [lia|].
      unfold size. rewrite Ew, Eh, !Z.sub_0_r. split; [reflexivity|].
      intros x y Hx Hy. rewrite Hpx by lia. now rewrite !Z.add_0_r.
    + destruct Hkeep as (Ew & Eh & Hpx & _); [lia|].
      unfold size. rewrite Ew, Eh, Hpx. auto.
    + destruct Hkeep as (Ew & Eh & Hpx & _); [lia|].
      unfold size. rewrite Ew, Eh, Hpx. auto.
Qed.

End CropBox.







(* ================================================================== *)
(** * Composition *)
(* ================================================================== *)

Section Sums.

Lemma fold_add_acc (xs : list Z) : forall a,
  fold_left Z.add xs a = a + fold_left Z.add xs 0.
Proof.
  induction xs as [|x xs IH]; intros a; simpl; [lia|].
  rewrite (IH (a + x)), (IH x). lia.
Qed.

Lemma sum_cons (x : Z) (xs : list Z) : Py.sum (x :: xs) = x + Py.sum xs.
Proof. unfold Py.sum. simpl. apply fold_add_acc. Qed.

Lemma sum_nonneg (xs : list Z) :
  (forall x, In x xs -> 0 <= x) -> 0 <= Py.sum xs.
Proof.
  induction xs as [|x xs IH]; intros H; [unfold Py.sum; simpl; lia|].
  rewrite sum_cons.
  specialize (H x (or_introl eq_refl)) as Hx.
  assert (0 <= Py.sum xs) by (apply IH; intros; apply H; now right). lia.
Qed.

Lemma fold_max_spec (xs : list Z) : forall a,
  let m := fold_left Z.max xs a in
  a <= m /\ (forall x, In x xs -> x <= m) /\ (m = a \/ In m xs).
Proof.
  induction xs as [|x xs IH]; intros a; simpl; [intuition lia|].
  destruct (IH (Z.max a x)) as (Ha & Hall & Hin). cbv zeta in *.
  split; [lia|]. split.
  - intros y [<-|Hy]; [lia|auto].
  - destruct Hin as [E|Hin]; [|auto].
    rewrite E. destruct (Z.max_spec a x) as [[_ ->]|[_ ->]]; auto.
Qed.

(** [max] of a non-empty list returns its greatest element. *)
Lemma max_ok (x : Z) (xs : list Z) :
  exists m, Py.max (x :: xs) = inr m /\ In m (x :: xs) /\
            forall y, In y (x :: xs) -> y <= m.
Proof.
  destruct (fold_max_spec xs x) as (Ha & Hall & Hin). cbv zeta in *.
  eexists. split; [reflexivity|]. split.
  - destruct Hin as [->|Hin]; [now left|now right].
  - intros y [<-|Hy]; auto.
Qed.

End Sums.

Section PasteLoop.
Import PIL Props.

Variable x_offset : Image -> Z.
Variable spacing : Z.
Hypothesis spacing_nonneg : 0 <= spacing.

Lemma paste_each_size (images : list Image) : forall canvas y0,
  width (paste_each x_offset spacing canvas images y0) = width canvas /\
  height (paste_each x_offset spacing canvas images y0) = height canvas /\
  mode (paste_each x_offset spacing canvas images y0) = mode canvas.
Proof.
  induction images as [|im rest IH]; intros canvas y0; [simpl; auto|].
  cbn [paste_each].
  destruct (IH (paste canvas im (x_offset im, y0))
               (y0 + (height im + spacing))) as (-> & -> & ->).
  apply paste_size.
Qed.

(** Rows above the cursor are out of reach of the pastes to come. *)
Lemma paste_each_above (images : list Image) : forall c y0 x y,
  y < y0 ->
  load_rgb (paste_each x_offset spacing (ImRGB c) images y0) x y
  = at_ c x y.
Proof.
  induction images as [|im rest IH]; intros c y0 x y Hy; simpl; auto.
  pose proof (height_nonneg im).
  rewrite IH by lia. simpl.
  assert (E : inside (width im) (height im) (x - x_offset im) (y - y0) = false)
    by (apply inside_false; lia).
  now rewrite E.
Qed.

(** The pixel [(x, y)] of the image of index [i] is found on the canvas
    at the image's horizontal offset plus [x], and its vertical offset
    plus [y]. *)
Lemma paste_each_page (images : list Image) : forall c y0 i page x y,
  nth_error images i = Some page ->
  0 <= x < width page -> 0 <= y < height page ->
  load_rgb (paste_each x_offset spacing (ImRGB c) images y0)
           (x_offset page + x)
           (y0 + Py.sum (map (fun im => height im + spacing)
                             (firstn i images)) + y)
  = load_rgb page x y.
Proof.
  induction images as [|im rest IH]; intros c y0 i page x y Hi Hx Hy.
  - destruct i; discriminate.
  - destruct i as [|j]; simpl in Hi.
    + injection Hi as ->. simpl.
      replace (y0 + Py.sum [] + y) with (y0 + y)
        by (unfold Py.sum; simpl; lia).
      rewrite paste_each_above by lia. simpl.
      assert (E : inside (width page) (height page)
                    (x_offset page + x - x_offset page) (y0 + y - y0) = true)
        by (apply inside_true; lia).
      rewrite E. f_equal; lia.
    + cbn [firstn map paste_each]. rewrite sum_cons.
      specialize (IH (match paste (ImRGB c) im (x_offset im, y0) with
                      | ImRGB r => r | _ => c end)
                     (y0 + (height im + spacing)) j page x y Hi Hx Hy).
      simpl in IH. simpl paste.
      rewrite <- IH. f_equal. lia.
Qed.

(** Every pixel of the canvas after the loop is a pixel of the canvas
    before it or a pixel of one of the images. *)
Lemma paste_each_source (images : list Image) : forall c y0 x y,
  load_rgb (paste_each x_offset spacing (ImRGB c) images y0) x y = at_ c x y
  \/ exists page x' y',
       In page images /\ 0 <= x' < width page /\ 0 <= y' < height page /\
       load_rgb (paste_each x_offset spacing (ImRGB c) images y0) x y
       = load_rgb page x' y'.
Proof.
  induction images as [|im rest IH]; intros c y0 x y; simpl; auto.
  match goal with
  | |- context [paste_each _ _ (ImRGB ?r) rest ?y1] =>
      destruct (IH r y1 x y) as [E|(page & x' & y' & Hin & Hx & Hy & E)]
  end.
  - rewrite E. cbn [at_].
    destruct (inside (width im) (height im) (x - x_offset im) (y - y0)) eqn:Hi;
      auto.
    apply inside_true in Hi. right. exists im, (x - x_offset im), (y - y0).
    repeat split; auto; lia.
  - right. exists page, x', y'. repeat split; auto; lia.
Qed.

End PasteLoop.

Section ActualWidth.
Import PIL Props Compositor.

Lemma find_pointwise {A} (f g : A -> bool) (l : list A) :
  (forall a, f a = g a) -> find f l = find g l.
Proof.
  intros H. induction l as [|a l IH]; simpl; auto.
  rewrite H, IH. reflexivity.
Qed.

Lemma existsb_pointwise {A} (f g : A -> bool) (l : list A) :
  (forall a, f a = g a) -> existsb f l = existsb g l.
Proof.
  intros H. induction l as [|a l IH]; simpl; auto.
  rewrite H, IH. reflexivity.
Qed.

(** The scan of [_find_actual_width] is the right-edge scan of the
    renderer, with [1] instead of the width when nothing is found. *)
Lemma find_actual_width_scan (image : Image) :
  _find_actual_width image =
  match find (Renderer.column_has_content (load_rgb image) (height image))
             (Py.range3 (width image - 1) (-1) (-1)) with
  | Some x => x + 1
  | None => 1
  end.
Proof.
  unfold _find_actual_width.
  destruct (convert_if_needed image) as (_ & Hw & Hh & Hl & _).
  cbv zeta in *. unfold size. rewrite Hw, Hh, Hl.
  erewrite find_pointwise; [reflexivity|].
  intros x. unfold Renderer.column_has_content.
  apply existsb_pointwise. intros y.
  unfold Renderer._is_white_pixel, Renderer.threshold_default.
  now destruct (load_rgb image x y) as ((p0 & p1) & p2).
Qed.

Lemma find_actual_width_content (image : Image) :
  has_content (load_rgb image) (width image) (height image) ->
  _find_actual_width image
  = Renderer._find_right_boundary (load_rgb image) (width image) (height image).
Proof.
  intros Hc. rewrite find_actual_width_scan.
  unfold Renderer._find_right_boundary.
  destruct (find _ _) eqn:E; auto.
  destruct Hc as (x & y & Hx & Hy & Hc).
  pose proof (find_range_down_none _ _ E x Hx) as Hn.
  apply column_has_content_false with (y := y) in Hn; auto. congruence.
Qed.

Lemma find_actual_width_blank (image : Image) :
  blank (load_rgb image) (width image) (height image) ->
  _find_actual_width image = 1.
Proof.
  intros Hb. rewrite find_actual_width_scan.
  destruct (find _ _) eqn:E; auto.
  apply find_range_down_some in E as (E & Hx & _).
  apply column_has_content_true in E as (y & Hy & E).
  rewrite Hb in E; auto. discriminate.
Qed.

Lemma find_actual_width_range (image : Image) :
  1 <= _find_actual_width image <= Z.max 1 (width image).
Proof.
  rewrite find_actual_width_scan.
  destruct (find _ _) eqn:E; [|lia].
  apply find_range_down_some in E as (_ & Hx & _). lia.
Qed.

(** Content in the last column: nothing to trim. *)
Lemma find_actual_width_full (image : Image) (y : Z) :
  0 <= width image - 1 -> 0 <= y < height image ->
  content (load_rgb image) (width image - 1) y = true ->
  _find_actual_width image = width image.
Proof.
  intros Hw Hy Hc.
  assert (Hcol : Renderer.column_has_content (load_rgb image) (height image)
                   (width image - 1) = true)
    by (apply column_has_content_true; eauto).
  rewrite find_actual_width_scan.
  destruct (find _ _) eqn:E.
  - apply find_range_down_some in E as (_ & Hx & Hlast).
    destruct (Z.eq_dec z (width image - 1)) as [->|Hne]; [lia|].
    rewrite Hlast in Hcol by lia. discriminate.
  - rewrite (find_range_down_none _ _ E) in Hcol by lia. discriminate.
Qed.

End ActualWidth.

Section Layout.
Import PIL Props Compositor.

Variable self : ImageCompositor.
Hypothesis spacing_nonneg : 0 <= spacing self.

Lemma paste_left_all_each (images : list Image) : forall canvas y0,
  paste_left_all self canvas images y0
  = paste_each (fun _ => 0) (spacing self) canvas images y0.
Proof.
  induction images as [|im rest IH]; intros canvas y0; simpl; auto.
Qed.

Lemma paste_centered_all_each (images : list Image) : forall canvas y0,
  paste_centered_all self canvas images y0
  = paste_each (fun im => (width canvas - width im) / 2) (spacing self)
               canvas images y0.
Proof.
  assert (H : forall cw canvas y0, width canvas = cw ->
            paste_centered_all self canvas images y0
            = paste_each (fun im => (cw - width im) / 2) (spacing self)
                         canvas images y0).
  { induction images as [|im rest IH]; intros cw canvas y0 Hw;
      [reflexivity|].
    cbn [paste_centered_all paste_each].
    unfold _paste_centered. rewrite Hw. apply IH.
    rewrite <- Hw. exact (proj1 (paste_size _ _ _)). }
  intros canvas y0. now apply H.
Qed.

(** With at least one image the total height is the sum of the heights
    plus one spacing per gap. *)
Lemma total_height_of_nonempty (im : Image) (rest : list Image) :
  total_height_of self (im :: rest)
  = Py.sum (map height (im :: rest))
    + spacing self * (Py.len (im :: rest) - 1).
Proof.
  unfold total_height_of.
  destruct (Z.ltb_spec 1 (Py.len (im :: rest))) as [H|H]; auto.
  replace (Py.len (im :: rest) - 1) with 0; [lia|].
  unfold Py.len in *. cbn [List.length] in *. lia.
Qed.

Lemma heights_sum_nonneg (images : list Image) :
  0 <= Py.sum (map height images).
Proof.
  apply sum_nonneg. intros x Hx. apply in_map_iff in Hx as (im & <- & _).
  apply height_nonneg.
Qed.

Lemma total_height_of_nonneg (images : list Image) :
  0 <= total_height_of self images.
Proof.
  unfold total_height_of. pose proof (heights_sum_nonneg images).
  destruct (Z.ltb_spec 1 (Py.len images)); nia.
Qed.

(** The image of index [i] lies, at its offset, within the total
    height. *)
Lemma y_offset_fits (images : list Image) : forall i page,
  nth_error images i = Some page ->
  0 <= y_offset_of self images i /\
  y_offset_of self images i + height page
  <= Py.sum (map height images) + spacing self * (Py.len images - 1).
Proof.
  unfold y_offset_of, Py.len.
  induction images as [|im rest IH]; intros i page Hi.
  - destruct i; discriminate.
  - pose proof (height_nonneg im) as Him.
    pose proof (heights_sum_nonneg rest) as Hrest.
    pose proof (Nat2Z.is_nonneg (List.length rest)) as Hlen.
    cbn [map List.length]. rewrite sum_cons, Nat2Z.inj_succ.
    destruct i as [|j]; simpl in Hi.
    + injection Hi as ->. cbn [firstn map]. change (Py.sum []) with 0.
      nia.
    + cbn [firstn map]. rewrite !sum_cons.
      destruct (IH j page Hi) as (H0 & H1). nia.
Qed.

Lemma y_offset_in_canvas (images : list Image) (i : nat) (page : Image) :
  nth_error images i = Some page ->
  0 <= y_offset_of self images i /\
  y_offset_of self images i + height page <= total_height_of self images.
Proof.
  intros Hi. destruct images as [|im rest]; [destruct i; discriminate|].
  rewrite total_height_of_nonempty. now apply y_offset_fits.
Qed.

Lemma max_width_ok (im : Image) (rest : list Image) :
  exists max_width,
    Py.max (map width (im :: rest)) = inr max_width /\
    0 <= max_width /\
    (forall page, In page (im :: rest) -> width page <= max_width) /\
    (exists page, In page (im :: rest) /\ width page = max_width).
Proof.
  destruct (max_ok (width im) (map width rest)) as (m & E & Hin & Hall).
  exists m. split; [exact E|].
  change (width im :: map width rest) with (map width (im :: rest)) in *.
  apply in_map_iff in Hin as (page & Hp & Hin).
  split; [rewrite <- Hp; apply width_nonneg|]. split.
  - intros p Hpi. apply Hall. now apply in_map.
  - eauto.
Qed.

End Layout.

Section Compose.
Import PIL Props Compositor.

Variable self : ImageCompositor.
Hypothesis spacing_nonneg : 0 <= spacing self.

Variable images : list Image.
Hypothesis images_nonempty : images <> [].
Hypothesis height_fits : total_height_of self images <= INT_MAX.

(** Both layouts start from the same white canvas. *)
Lemma blank_canvas_ok :
  exists max_width c,
    Py.max (map width images) = inr max_width /\
    new_RGB (max_width, total_height_of self images) (255, 255, 255)
    = inr (ImRGB c) /\
    Z.of_N (cols c) = max_width /\
    Z.of_N (rows c) = total_height_of self images /\
    (forall x y, at_ c x y = (255, 255, 255)) /\
    (forall page, In page images -> width page <= max_width) /\
    (exists page, In page images /\ width page = max_width).
Proof.
  pose proof (total_height_of_nonneg self spacing_nonneg images) as Htot.
  destruct images as [|im rest]; [contradiction|].
  destruct (max_width_ok im rest) as (m & E & Hm & Hall & Hex).
  assert (Hmm : m <= INT_MAX).
  { destruct Hex as (page & _ & <-). apply size_le_int_max. }
  destruct (new_RGB_ok m (total_height_of self (im :: rest)) (255, 255, 255))
    as (c & Ec & Hw & Hh & Hpx); [lia | lia |].
  exists m, c. repeat split; auto.
Qed.

Lemma compose_fixed_width_ok :
  exists out,
    _compose_fixed_width self images = inr out /\
    fixed_width_layout self images out.
Proof.
  destruct blank_canvas_ok as (m & c & Em & Ec & Hw & Hh & Hpx & Hall & Hex).
  exists (paste_centered_all self (ImRGB c) images 0). split.
  - unfold _compose_fixed_width, _calculate_canvas_size.
    rewrite Em. cbn [Py.bind Py.ret]. rewrite Ec. reflexivity.
  - exists m. split; [exact Em|].
    rewrite paste_centered_all_each.
    destruct (paste_each_size
                (fun im => (width (ImRGB c) - width im) / 2) (spacing self)
                images (ImRGB c) 0) as (Ew & Eh & _).
    split; [unfold size; rewrite Ew, Eh; simpl; now rewrite Hw, Hh|].
    intros i page x y Hi Hx Hy.
    pose proof (paste_each_page
                  (fun im => (width (ImRGB c) - width im) / 2) (spacing self)
                  spacing_nonneg images c 0 i page x y Hi Hx Hy) as Hp.
    cbn [width] in Hp. rewrite Hw in Hp. cbn [width]. rewrite Hw.
    exact Hp.
Qed.

Lemma compose_auto_width_ok :
  exists out,
    _compose_auto_width self images = inr out /\
    auto_width_layout self images out.
Proof.
  destruct blank_canvas_ok as (m & c & Em & Ec & Hw & Hh & Hpx & Hall & Hex).
  pose proof (total_height_of_nonneg self spacing_nonneg images) as Htot.
  set (canvas := paste_left_all self (ImRGB c) images 0).
  assert (Hsize : width canvas = m /\
                  height canvas = total_height_of self images).
  { unfold canvas. rewrite paste_left_all_each.
    destruct (paste_each_size (fun _ => 0) (spacing self) images (ImRGB c) 0)
      as (-> & -> & _). simpl. auto. }
  destruct Hsize as (Ecw & Ech).
  assert (Hpages : forall i page x y,
            nth_error images i = Some page ->
            0 <= x < width page -> 0 <= y < height page ->
            load_rgb canvas x (y_offset_of self images i + y)
            = load_rgb page x y).
  { intros i page x y Hi Hx Hy. unfold canvas.
    rewrite paste_left_all_each.
    exact (paste_each_page (fun _ => 0) (spacing self) spacing_nonneg
             images c 0 i page x y Hi Hx Hy). }
  pose proof (find_actual_width_range canvas) as Haw. rewrite Ecw in Haw.
  set (aw := _find_actual_width canvas) in *.
  assert (Hscan : has_content (load_rgb canvas) (width canvas) (height canvas) ->
            0 < aw <= m /\
            (exists y, 0 <= y < height canvas /\
                       content (load_rgb canvas) (aw - 1) y = true) /\
            (forall x y, aw <= x < m -> 0 <= y < height canvas ->
                         content (load_rgb canvas) x y = false)).
  { intros Hc. unfold aw. rewrite (find_actual_width_content canvas Hc).
    destruct (right_boundary_spec _ _ _ Hc) as (Hr & Hrc & Hrn).
    cbv zeta in *. rewrite Ecw in Hr, Hrn, Hrc |- *.
    split; [exact Hr|]. split.
    - now apply column_has_content_true.
    - intros x y Hx Hy.
      exact (proj1 (column_has_content_false _ _ _) (Hrn x Hx) y Hy). }
  assert (Hfull : (exists page y,
                     In page images /\ 0 <= m - 1 < width page /\
                     0 <= y < height page /\
                     content (load_rgb page) (m - 1) y = true) ->
                  aw = m).
  { intros (page & y & Hin & Hx & Hy & Hc).
    apply In_nth_error in Hin as (i & Hi).
    destruct (y_offset_in_canvas self spacing_nonneg images i page Hi)
      as (H0 & H1).
    unfold aw. rewrite <- Ecw.
    apply find_actual_width_full with (y := y_offset_of self images i + y).
    - lia.
    - lia.
    - unfold content. rewrite Ecw.
      rewrite (Hpages i page (m - 1) y Hi) by lia. exact Hc. }
  destruct (Z.ltb_spec aw m) as [Hlt|Hge].
  - destruct (crop_ok canvas 0 0 aw (total_height_of self images))
      as (out & E & _ & Ewo & Eho & Hpo); try lia.
    exists out. split.
    + unfold _compose_auto_width. rewrite Em. cbn [Py.bind Py.ret].
      rewrite Ec. cbn [Py.bind Py.ret]. fold canvas. fold aw.
      destruct (Z.ltb_spec aw m); [exact E|lia].
    + exists m, (ImRGB c). fold canvas. cbv zeta. fold aw.
      destruct (Z.ltb_spec aw m); [|lia].
      split; [exact Em|]. split; [exact Ec|]. split; [exact Ecw|].
      split; [exact Ech|]. split; [exact Hpages|]. split; [exact Hscan|].
      split; [lia|]. split; [lia|]. split.
      * intros x y Hx Hy. rewrite Hpo by lia. now rewrite !Z.add_0_r.
      * split; [lia|]. intros H'. apply Hfull in H'. lia.
  - exists canvas. split.
    + unfold _compose_auto_width. rewrite Em. cbn [Py.bind Py.ret].
      rewrite Ec. cbn [Py.bind Py.ret]. fold canvas. fold aw.
      destruct (Z.ltb_spec aw m); [lia|reflexivity].
    + exists m, (ImRGB c). fold canvas. cbv zeta. fold aw.
      destruct (Z.ltb_spec aw m); [lia|].
      split; [exact Em|]. split; [exact Ec|]. split; [exact Ecw|].
      split; [exact Ech|]. split; [exact Hpages|]. split; [exact Hscan|].
      split; [exact Ecw|]. split; [reflexivity|].
      split; [reflexivity|]. split; [lia|]. auto.
Qed.

End Compose.

Section ComposeEntry.
Import PIL Props Compositor.

Variable self : ImageCompositor.
Variable images : list Image.
Hypothesis images_nonempty : images <> [].

(** On a non-empty list [compose] returns what the chosen layout
    returns. *)
Lemma compose_returns (out : Image) :
  (if auto_width self
   then _compose_auto_width self images
   else _compose_fixed_width self images) = inr out ->
  compose self images = inr out.
Proof.
  intros E. unfold compose.
  destruct images; [contradiction|]. now rewrite E.
Qed.

Lemma total_height_of_cases :
  (1 < Py.len images ->
   total_height_of self images
   = Py.sum (map height images) + spacing self * (Py.len images - 1)) /\
  (forall page, images = [page] ->
                total_height_of self images = height page).
Proof.
  split.
  - intros H. destruct images; [contradiction|].
    apply total_height_of_nonempty.
  - intros page ->. unfold total_height_of, Py.sum. simpl. lia.
Qed.

(** The height to allocate, as the sum it is. *)
Lemma total_height_formula :
  total_height_of self images
  = Py.sum (map height images) + spacing self * (Py.len images - 1).
Proof.
  destruct images; [contradiction|]. apply total_height_of_nonempty.
Qed.

Lemma total_height_fits :
  Py.sum (map height images) + spacing self * (Py.len images - 1) <= INT_MAX ->
  total_height_of self images <= INT_MAX.
Proof. now rewrite total_height_formula. Qed.

End ComposeEntry.

(** [Props.canvas_fits] for given pages, by evaluation. *)
Ltac canvas_fits_by_evaluation :=
  split;
  [ vm_compute; discriminate
  | let Hpol := fresh "Hpol" in
    let Hm := fresh "Hm" in
    intros Hpol max_width Hm; vm_compute in Hpol;
    first [ discriminate Hpol
          | vm_compute in Hm; injection Hm as <-; vm_compute; discriminate ] ].










(** C6. Composing the empty list raises the Composition error, with the
    same message whatever the spacing and the width policy are, and
    whichever compositor is asked, however often: the outcome depends on
    nothing else and leaves the compositor as it is. *)
Theorem compose_empty_fails (self other : Compositor.ImageCompositor) :
  Compositor.compose self []
  = inl (Py.CompositionError "Cannot compose empty image list") /\
  Compositor.compose other [] = Compositor.compose self [].
Proof. split; reflexivity. Qed.

Section BlankPages.
Import PIL Props Compositor.

(** Pasting background pages on a white canvas leaves it all
    background. *)
Lemma paste_left_all_blank (self : ImageCompositor) (images : list Image)
    (c : Raster rgb) :
  (forall x y, at_ c x y = (255, 255, 255)) ->
  (forall page, In page images ->
                blank (load_rgb page) (width page) (height page)) ->
  forall w h,
    blank (load_rgb (paste_left_all self (ImRGB c) images 0)) w h.
Proof.
  intros Hwhite Hblank w h x y _ _. unfold content.
  rewrite paste_left_all_each.
  destruct (paste_each_source (fun _ => 0) (spacing self) images c 0 x y)
    as [E|(page & x' & y' & Hin & Hx & Hy & E)]; rewrite E.
  - rewrite Hwhite. reflexivity.
  - exact (Hblank page Hin x' y' Hx Hy).
Qed.

End BlankPages.




(* ================================================================== *)
(** * Rendering and the progress callback *)
(* ================================================================== *)

Section Rendering.
Import PIL Renderer Props.

Variable self : PDFRenderer.

(** The pages are normalized one by one, in order. *)
Lemma normalized_unique (images : list Image) : forall pages pages',
  Forall2 (fun im out => normalize self im = inr out) images pages ->
  Forall2 (fun im out => normalize self im = inr out) images pages' ->
  pages = pages'.
Proof.
  induction images as [|im rest IH]; intros pages pages' H H';
    inversion H; inversion H'; subst; auto.
  f_equal; [congruence|auto].
Qed.

(** Normalizing a page never raises. *)
Lemma normalize_ok (image : Image) :
  exists out, normalize self image = inr out.
Proof.
  destruct (ensure_white_background_ok image) as (flat & E & _).
  unfold normalize. rewrite E. cbn [Py.bind].
  destruct (auto_crop self); [|eexists; reflexivity].
  destruct (crop_whitespace_ok self flat) as (out & Ec & _). eauto.
Qed.

Variable callback : Callback.
Hypothesis callback_returns : forall current total, callback current total = inr tt.

Variable total_pages : Z.

(** The loop calls the callback once per page, with the indices that
    [enumerate] hands out, and appends one processed page each time. *)
Lemma process_each_log (images : list Image) : forall start processed log,
  exists pages,
    process_each self (Some callback) total_pages
                 (Py.enumerate images start) processed log
    = ((log ++ map (fun idx => (idx, total_pages))
                   (Py.count_from start 1 (List.length images)))%list,
       inr (processed ++ pages)%list) /\
    Forall2 (fun im out => normalize self im = inr out) images pages.
Proof.
  induction images as [|im rest IH]; intros start processed log.
  - exists []. simpl. unfold rret. now rewrite !app_nil_r.
  - destruct (normalize_ok im) as (out & E).
    destruct (IH (start + 1) (processed ++ [out])%list
                 (log ++ [(start, total_pages)])%list)
      as (pages & Ep & Hall).
    exists (out :: pages). split; [|now constructor].
    cbn [Py.enumerate process_each]. unfold rbind, lift, call.
    rewrite E, callback_returns, Ep.
    cbn [List.length Py.count_from map]. now rewrite <- !app_assoc.
Qed.

(** Without a callback nothing is logged. *)
Lemma process_each_silent (images : list Image) : forall start processed log,
  exists pages,
    process_each self None total_pages
                 (Py.enumerate images start) processed log
    = (log, inr (processed ++ pages)%list) /\
    Forall2 (fun im out => normalize self im = inr out) images pages.
Proof.
  induction images as [|im rest IH]; intros start processed log.
  - exists []. simpl. unfold rret. now rewrite !app_nil_r.
  - destruct (normalize_ok im) as (out & E).
    destruct (IH (start + 1) (processed ++ [out])%list log)
      as (pages & Ep & Hall).
    exists (out :: pages). split; [|now constructor].
    cbn [Py.enumerate process_each]. unfold rbind, lift, rret.
    rewrite E, Ep. now rewrite <- !app_assoc.
Qed.

End Rendering.

Section ProgressLog.
Import Props.

Lemma count_from_length (n : nat) : forall start step,
  List.length (Py.count_from start step n) = n.
Proof. induction n; intros; simpl; auto. Qed.

Lemma count_from_nth (n : nat) : forall start k,
  (k < n)%nat ->
  nth_error (Py.count_from start 1 n) k = Some (start + Z.of_nat k).
Proof.
  induction n as [|n IH]; intros start k Hk; [lia|].
  destruct k as [|k]; simpl.
  - f_equal. lia.
  - rewrite IH by lia. f_equal. lia.
Qed.

Lemma progress_log_unfold (n : nat) :
  progress_log (Z.of_nat n)
  = map (fun idx => (idx, Z.of_nat n)) (Py.count_from 1 1 n).
Proof.
  unfold progress_log, Py.range3. simpl.
  replace (Z.of_nat n + 1 - 1 + 1 - 1) with (Z.of_nat n) by lia.
  now rewrite Z.div_1_r, Nat2Z.id.
Qed.

End ProgressLog.



(* ================================================================== *)
(** * Further properties of the renderer *)
(* ================================================================== *)



Section CallbackFailure.
Import PIL Renderer Props.

Variable self : PDFRenderer.
Variable callback : Callback.
Variable total_pages : Z.
Variable e : Py.BaseException.

(** The loop stops at the first call that raises; the calls made so far,
    that one included, are in the log. *)
Lemma process_each_raise (images : list Image) :
  forall start processed log (k : nat),
    (k < List.length images)%nat ->
    (forall j, (j < k)%nat ->
       callback (start + Z.of_nat j) total_pages = inr tt) ->
    callback (start + Z.of_nat k) total_pages = inl e ->
    process_each self (Some callback) total_pages
                 (Py.enumerate images start) processed log
    = ((log ++ map (fun idx => (idx, total_pages))
                   (Py.count_from start 1 (S k)))%list, inl e).
Proof.
  induction images as [|im rest IH]; intros start processed log k Hk Hok Hraise.
  - simpl in Hk. lia.
  - destruct (normalize_ok self im) as (out & E).
    cbn [Py.enumerate process_each]. unfold rbind, lift, call.
    rewrite E.
    destruct k as [|k].
    + replace (start + Z.of_nat 0) with start in Hraise by lia.
      rewrite Hraise. reflexivity.
    + pose proof (Hok 0%nat ltac:(lia)) as H0.
      replace (start + Z.of_nat 0) with start in H0 by lia.
      rewrite H0.
      rewrite (IH (start + 1) _ _ k).
      * cbn [Py.count_from map]. now rewrite <- app_assoc.
      * simpl in Hk. lia.
      * intros j Hj. specialize (Hok (S j) ltac:(lia)).
        rewrite <- Hok. f_equal. lia.
      * rewrite <- Hraise. f_equal. lia.
Qed.

(** A prefix of a count is a shorter count. *)
Lemma count_from_firstn (n : nat) : forall k start step,
  (k <= n)%nat ->
  firstn k (Py.count_from start step n) = Py.count_from start step k.
Proof.
  induction n as [|n IH]; intros k start step Hk.
  - assert (k = 0%nat) as -> by lia. reflexivity.
  - destruct k as [|k]; [reflexivity|].
    cbn [Py.count_from firstn]. f_equal. apply IH. lia.
Qed.

End CallbackFailure.



Section NormalizedPages.
Import PIL Renderer Props.

Variable self : PDFRenderer.

(** A normalized page is ['RGB'] and no larger than its source. *)
Lemma normalize_rgb_no_larger (image out : Image) :
  normalize self image = inr out ->
  mode out = RGB /\ width out <= width image /\ height out <= height image.
Proof.
  destruct (ensure_white_background_ok image) as (flat & E & Hrgb & Ew & Eh & _).
  unfold normalize. rewrite E. cbn [Py.bind].
  destruct (auto_crop self).
  - destruct (crop_whitespace_ok self flat) as (out' & Ec & Hmo & Hcrop & Hkeep).
    rewrite Ec. intros [= <-]. split; [exact Hmo|].
    rewrite Ew, Eh in Hcrop, Hkeep.
    match type of Hcrop with
    | ?c -> _ => assert (Hdec : c \/ ~ c) by lia
    end.
    destruct Hdec as [Hbox|Hbox].
    + destruct (Hcrop Hbox) as (Ewo & Eho & _). lia.
    + destruct (Hkeep Hbox) as (Ewo & Eho & _). lia.
  - intros [= <-]. split; [exact Hrgb|]. lia.
Qed.

Lemma normalized_rgb_no_larger (images : list Image) : forall pages,
  normalized self images pages -> rgb_and_no_larger images pages.
Proof.
  unfold normalized, rgb_and_no_larger.
  induction images as [|im rest IH]; intros pages H; inversion H; subst;
    constructor; auto.
  now apply normalize_rgb_no_larger.
Qed.

End NormalizedPages.





Section BoxUniqueness.
Import PIL Renderer Props.

Variable pixels : Z -> Z -> rgb.
Variables width height : Z.

(** A grid has content or is all background. *)
Lemma content_or_blank :
  has_content pixels width height \/ blank pixels width height.
Proof.
  destruct (find (column_has_content pixels height) (Py.range width))
    as [x|] eqn:E.
  - left. apply find_range_some in E as (Hc & Hx & _).
    apply column_has_content_true in Hc as (y & Hy & Hc).
    exists x, y. auto.
  - right. intros x y Hx Hy.
    pose proof (find_range_none _ _ E x Hx) as Hn.
    exact (proj1 (column_has_content_false _ _ _) Hn y Hy).
Qed.

(** The tightest box is unique: the scans return it. *)
Lemma tightest_box_is_content_box (a c b d : Z) :
  tightest_box pixels width height (a, c, b, d) ->
  0 <= a < width -> 0 < b <= width -> 0 <= c < height -> 0 < d <= height ->
  content_box pixels width height = (a, c, b, d).
Proof.
  intros (Hin & (ya & Hya & Ca) & (yb & Hyb & Cb) & (xc & Hxc & Cc)
          & (xd & Hxd & Cd)) Ha Hb Hc Hd.
  assert (Hhas : has_content pixels width height) by (exists a, ya; auto).
  destruct (left_boundary_spec _ _ _ Hhas) as (Hl & Hlc & _).
  destruct (right_boundary_spec _ _ _ Hhas) as (Hr & Hrc & _).
  destruct (top_boundary_spec _ _ _ Hhas) as (Ht & Htc & _).
  destruct (bottom_boundary_spec _ _ _ Hhas) as (Hbt & Hbc & _).
  cbv zeta in *.
  apply column_has_content_true in Hlc as (y1 & Hy1 & C1).
  apply column_has_content_true in Hrc as (y2 & Hy2 & C2).
  apply row_has_content_true in Htc as (x3 & Hx3 & C3).
  apply row_has_content_true in Hbc as (x4 & Hx4 & C4).
  set (l := _find_left_boundary pixels width height) in *.
  set (r := _find_right_boundary pixels width height) in *.
  set (t := _find_top_boundary pixels width height) in *.
  set (bt := _find_bottom_boundary pixels width height) in *.
  assert (Hr1 : 0 <= r - 1 < width) by lia.
  assert (Hb1 : 0 <= bt - 1 < height) by lia.
  destruct (Hin l y1 Hl Hy1 C1) as (I1 & _).
  destruct (Hin (r - 1) y2 Hr1 Hy2 C2) as (I2 & _).
  destruct (Hin x3 t Hx3 Ht C3) as (_ & I3).
  destruct (Hin x4 (bt - 1) Hx4 Hb1 C4) as (_ & I4).
  assert (Hb1' : 0 <= b - 1 < width) by lia.
  assert (Hd1' : 0 <= d - 1 < height) by lia.
  destruct (content_inside_box _ _ _ Hhas a ya Ha Hya Ca) as (J1 & _).
  destruct (content_inside_box _ _ _ Hhas (b - 1) yb Hb1' Hyb Cb) as (J2 & _).
  destruct (content_inside_box _ _ _ Hhas xc c Hxc Hc Cc) as (_ & J3).
  destruct (content_inside_box _ _ _ Hhas xd (d - 1) Hxd Hd1' Cd) as (_ & J4).
  fold l r t bt in J1, J2, J3, J4.
  unfold content_box. fold l r t bt. repeat f_equal; lia.
Qed.

End BoxUniqueness.

Section CropTwice.
Import PIL Renderer Props.

Variable self : PDFRenderer.
Hypothesis margin_nonneg : 0 <= crop_margin self.

Lemma same_bitmap_refl (im : Image) : same_bitmap im im.
Proof. unfold same_bitmap. auto. Qed.

(** On an ['RGB'] image whose content box, widened by the margin, already
    covers it, cropping changes neither size nor pixels. *)
Lemma crop_whitespace_covering (im : Image) :
  mode im = RGB ->
  Z.max 0 (_find_left_boundary (load_rgb im) (width im) (height im)
           - crop_margin self) = 0 ->
  Z.min (width im)
        (_find_right_boundary (load_rgb im) (width im) (height im)
         + crop_margin self) = width im ->
  Z.max 0 (_find_top_boundary (load_rgb im) (width im) (height im)
           - crop_margin self) = 0 ->
  Z.min (height im)
        (_find_bottom_boundary (load_rgb im) (width im) (height im)
         + crop_margin self) = height im ->
  exists out, _crop_whitespace self im = inr out /\ same_bitmap out im.
Proof.
  intros Hrgb E0 E1 E2 E3.
  destruct (crop_whitespace_ok self im) as (out & E & Hmo & Hcrop & Hkeep).
  rewrite E0, E1, E2, E3 in Hcrop, Hkeep.
  exists out. split; [exact E|].
  unfold same_bitmap. rewrite Hmo, Hrgb. split; [reflexivity|].
  destruct (Z_lt_dec 0 (width im)) as [Hw|Hw];
    [destruct (Z_lt_dec 0 (height im)) as [Hh|Hh]|].
  - destruct Hcrop as (Ew & Eh & Hpx); [lia|].
    unfold size. rewrite Ew, Eh, !Z.sub_0_r. split; [reflexivity|].
    intros x y Hx Hy. rewrite Hpx by lia. now rewrite !Z.add_0_r.
  - destruct Hkeep as (Ew & Eh & Hpx & _); [lia|].
    unfold size. rewrite Ew, Eh, Hpx. auto.
  - destruct Hkeep as (Ew & Eh & Hpx & _); [lia|].
    unfold size. rewrite Ew, Eh, Hpx. auto.
Qed.

End CropTwice.



Section Flattening.
Import PIL Renderer Props.

Lemma div255_exact (k : Z) : 0 <= k <= 255 -> div255 (255 * k) = k.
Proof.
  intros Hk. unfold div255. cbv zeta.
  rewrite !Z.shiftr_div_pow2 by lia. change (2 ^ 8) with 256.
  Z.div_mod_to_equations. lia.
Qed.

Lemma div255_mono (a b : Z) : a <= b -> div255 a <= div255 b.
Proof.
  intros H. unfold div255. cbv zeta.
  rewrite !Z.shiftr_div_pow2 by lia. change (2 ^ 8) with 256.
  Z.div_mod_to_equations. lia.
Qed.

(** Blending an 8-bit value over white gives a value between it and
    white; the value itself under a full mask, white under an empty
    one. *)
Lemma blend_over_white (mask v : Z) :
  is_8bit mask -> is_8bit v ->
  v <= blend mask 255 v <= 255 /\
  (mask = 255 -> blend mask 255 v = v) /\
  (mask = 0 -> blend mask 255 v = 255).
Proof.
  unfold is_8bit, blend. intros Hm Hv.
  pose proof (div255_exact v Hv) as Ev.
  pose proof (div255_exact 255 ltac:(lia)) as Ew.
  split; [|split].
  - assert (L : div255 (255 * v) <= div255 (255 * (255 - mask) + v * mask))
      by (apply div255_mono; nia).
    assert (U : div255 (255 * (255 - mask) + v * mask) <= div255 (255 * 255))
      by (apply div255_mono; nia).
    lia.
  - intros ->. transitivity (div255 (255 * v)); [f_equal; lia | exact Ev].
  - intros ->. transitivity (div255 (255 * 255)); [f_equal; lia | exact Ew].
Qed.

End Flattening.

(** X6. Flattening an ['RGBA'] page with 8-bit bands never raises and
    never darkens: each band of a flattened pixel lies between the source
    band and 255; where the page is opaque (alpha 255) the pixel keeps its
    colour, and where it is transparent (alpha 0) it becomes white. *)
Theorem ensure_white_background_blends
    (r : PIL.Raster PIL.rgba) (x y p0 p1 p2 a : Z) :
  0 <= x < Z.of_N (PIL.cols r) -> 0 <= y < Z.of_N (PIL.rows r) ->
  PIL.at_ r x y = (p0, p1, p2, a) ->
  Props.is_8bit p0 -> Props.is_8bit p1 -> Props.is_8bit p2 ->
  Props.is_8bit a ->
  exists flat q0 q1 q2,
    Renderer._ensure_white_background (PIL.ImRGBA r) = inr flat /\
    PIL.load_rgb flat x y = (q0, q1, q2) /\
    (p0 <= q0 <= 255 /\ p1 <= q1 <= 255 /\ p2 <= q2 <= 255) /\
    (a = 255 -> (q0, q1, q2) = (p0, p1, p2)) /\
    (a = 0 -> (q0, q1, q2) = (255, 255, 255)).
Proof.
  intros Hx Hy Hpx H0 H1 H2 Ha.
  pose proof (proj1 (fits_true _ _) (PIL.size_fits r)) as (Hcm & Hrm).
  destruct (new_RGB_ok (Z.of_N (PIL.cols r)) (Z.of_N (PIL.rows r))
              (255, 255, 255)) as (c & E & Hw & Hh & Hwhite); try lia.
  unfold Renderer._ensure_white_background, PIL.size, PIL.width, PIL.height.
  rewrite E. cbn [Py.bind Py.ret].
  exists (PIL.paste_alpha (PIL.ImRGB c) r),
    (PIL.blend a 255 p0), (PIL.blend a 255 p1), (PIL.blend a 255 p2).
  split; [reflexivity|].
  destruct (blend_over_white a p0 Ha H0) as (B0 & O0 & T0).
  destruct (blend_over_white a p1 Ha H1) as (B1 & O1 & T1).
  destruct (blend_over_white a p2 Ha H2) as (B2 & O2 & T2).
  split; [|split; [auto|split]].
  - cbn [PIL.paste_alpha PIL.load_rgb PIL.at_].
    assert (Ei : PIL.inside (Z.of_N (PIL.cols r)) (Z.of_N (PIL.rows r)) x y
                 = true) by (apply inside_true; lia).
    rewrite Ei, Hwhite, Hpx. reflexivity.
  - intros Ea. now rewrite (O0 Ea), (O1 Ea), (O2 Ea).
  - intros Ea. now rewrite (T0 Ea), (T1 Ea), (T2 Ea).
Qed.

Lemma ensure_white_background_blends_witness :
  exists flat q0 q1 q2,
    Renderer._ensure_white_background (PIL.ImRGBA Props.half_clear)
    = inr flat /\
    PIL.load_rgb flat 1 0 = (q0, q1, q2) /\
    (200 <= q0 <= 255 /\ 10 <= q1 <= 255 /\ 10 <= q2 <= 255) /\
    (0 = 255 -> (q0, q1, q2) = (200, 10, 10)) /\
    (0 = 0 -> (q0, q1, q2) = (255, 255, 255)).
Proof.
  apply (ensure_white_background_blends Props.half_clear 1 0 200 10 10 0);
    try reflexivity; unfold Props.is_8bit; simpl; lia.
Defined.

(* ================================================================== *)
(** * Further properties of the compositor *)
(* ================================================================== *)

Section PasteRows.
Import PIL Props.

Variable x_offset : Image -> Z.
Variable spacing : Z.
Hypothesis spacing_nonneg : 0 <= spacing.

Lemma offsets_nonneg (images : list Image) :
  0 <= Py.sum (map (fun im => height im + spacing) images).
Proof.
  apply sum_nonneg. intros v Hv. apply in_map_iff in Hv as (im & <- & _).
  pose proof (height_nonneg im). lia.
Qed.

(** The rows of the image of index [i] after the loop: the image where it
    was pasted, the canvas as it was elsewhere. *)
Lemma paste_each_band (images : list Image) : forall c y0 i page x y,
  nth_error images i = Some page ->
  0 <= y < height page ->
  load_rgb (paste_each x_offset spacing (ImRGB c) images y0) x
           (y0 + Py.sum (map (fun im => height im + spacing)
                             (firstn i images)) + y)
  = if (x_offset page <=? x) && (x <? x_offset page + width page)
    then load_rgb page (x - x_offset page) y
    else at_ c x (y0 + Py.sum (map (fun im => height im + spacing)
                                   (firstn i images)) + y).
Proof.
  induction images as [|im rest IH]; intros c y0 i page x y Hi Hy.
  - destruct i; discriminate.
  - destruct i as [|j]; simpl in Hi.
    + injection Hi as ->. cbn [firstn map paste_each].
      change (Py.sum []) with 0. rewrite Z.add_0_r.
      simpl paste. rewrite paste_each_above by lia. cbn [at_].
      unfold inside. replace (y0 + y - y0) with y by lia.
      destruct (Z.leb_spec (x_offset page) x), (Z.leb_spec 0 (x - x_offset page));
        try lia;
        destruct (Z.ltb_spec x (x_offset page + width page)),
                 (Z.ltb_spec (x - x_offset page) (width page)); try lia;
        destruct (Z.leb_spec 0 y), (Z.ltb_spec y (height page)); try lia;
        reflexivity.
    + cbn [firstn map paste_each]. rewrite sum_cons. simpl paste.
      pose proof (offsets_nonneg (firstn j rest)) as Hoff.
      pose proof (height_nonneg im) as Him.
      match goal with
      | |- context [paste_each _ _ (ImRGB ?r) rest ?y1] =>
          pose proof (IH r y1 j page x y Hi Hy) as Hp
      end.
      replace (y0 + (height im + spacing
                     + Py.sum (map (fun im0 => height im0 + spacing)
                                   (firstn j rest))) + y)
        with (y0 + (height im + spacing)
              + Py.sum (map (fun im0 => height im0 + spacing) (firstn j rest))
              + y) by lia.
      rewrite Hp. cbn [at_].
      match goal with
      | |- context [inside ?w ?h ?a ?b] =>
          assert (E : inside w h a b = false) by (apply inside_false; lia)
      end.
      now rewrite E.
Qed.

(** The rows of the spacing after the image of index [i] are left as they
    were. *)
Lemma paste_each_gap (images : list Image) : forall c y0 i page x y,
  nth_error images i = Some page ->
  height page <= y < height page + spacing ->
  load_rgb (paste_each x_offset spacing (ImRGB c) images y0) x
           (y0 + Py.sum (map (fun im => height im + spacing)
                             (firstn i images)) + y)
  = at_ c x (y0 + Py.sum (map (fun im => height im + spacing)
                              (firstn i images)) + y).
Proof.
  induction images as [|im rest IH]; intros c y0 i page x y Hi Hy.
  - destruct i; discriminate.
  - destruct i as [|j]; simpl in Hi.
    + injection Hi as ->. cbn [firstn map paste_each].
      change (Py.sum []) with 0. rewrite Z.add_0_r.
      simpl paste. rewrite paste_each_above by lia. cbn [at_].
      match goal with
      | |- context [inside ?w ?h ?a ?b] =>
          assert (E : inside w h a b = false) by (apply inside_false; lia)
      end.
      now rewrite E.
    + cbn [firstn map paste_each]. rewrite sum_cons. simpl paste.
      pose proof (offsets_nonneg (firstn j rest)) as Hoff.
      pose proof (height_nonneg im) as Him.
      pose proof (height_nonneg page) as Hpg.
      match goal with
      | |- context [paste_each _ _ (ImRGB ?r) rest ?y1] =>
          pose proof (IH r y1 j page x y Hi Hy) as Hp
      end.
      replace (y0 + (height im + spacing
                     + Py.sum (map (fun im0 => height im0 + spacing)
                                   (firstn j rest))) + y)
        with (y0 + (height im + spacing)
              + Py.sum (map (fun im0 => height im0 + spacing) (firstn j rest))
              + y) by lia.
      rewrite Hp. cbn [at_].
      match goal with
      | |- context [inside ?w ?h ?a ?b] =>
          assert (E : inside w h a b = false) by (apply inside_false; lia)
      end.
      now rewrite E.
Qed.

End PasteRows.

(** X7. Under the FixedWidth policy, when the canvas fits Pillow (its
    height is within a C [int]), the output is fully determined, row by
    row: in the rows of a page the columns from
    [(canvas_width - page_width) // 2] on, as many as the page is wide,
    show the page, and the margins left and right of it are white; the
    rows of the spacing between pages are white. *)
Theorem fixed_width_rows
    (self : Compositor.ImageCompositor) (images : list PIL.Image) :
  images <> [] ->
  0 <= Compositor.spacing self ->
  Compositor.auto_width self = false ->
  Props.canvas_fits self images ->
  exists out,
    Compositor.compose self images = inr out /\
    Props.rows_of_pages self images
      (fun page => (PIL.width out - PIL.width page) / 2) out.
Proof.
  intros Hne Hs Hpol Hfit0.
  pose proof (total_height_fits self images Hne (proj1 Hfit0)) as Hfit.
  destruct (blank_canvas_ok self Hs images Hne Hfit)
    as (m & c & Em & Ec & Hw & Hh & Hwhite & _).
  set (out := Compositor.paste_centered_all self (PIL.ImRGB c) images 0).
  assert (E : Compositor._compose_fixed_width self images = inr out).
  { unfold Compositor._compose_fixed_width, Compositor._calculate_canvas_size.
    rewrite Em. cbn [Py.bind Py.ret]. rewrite Ec. reflexivity. }
  exists out. split; [apply compose_returns; auto; now rewrite Hpol|].
  assert (Eo : out = Props.paste_each
                       (fun im => (PIL.width (PIL.ImRGB c) - PIL.width im) / 2)
                       (Compositor.spacing self) (PIL.ImRGB c) images 0)
    by apply paste_centered_all_each.
  assert (Ewo : PIL.width out = PIL.width (PIL.ImRGB c)).
  { rewrite Eo. apply paste_each_size. }
  intros i page x y Hi Hx. rewrite Ewo. rewrite Eo. split.
  - intros Hy.
    pose proof (paste_each_band
                  (fun im => (PIL.width (PIL.ImRGB c) - PIL.width im) / 2)
                  (Compositor.spacing self) Hs images c 0 i page x y Hi Hy)
      as Hp.
    rewrite Hwhite in Hp. exact Hp.
  - intros Hy _.
    pose proof (paste_each_gap
                  (fun im => (PIL.width (PIL.ImRGB c) - PIL.width im) / 2)
                  (Compositor.spacing self) Hs images c 0 i page x y Hi Hy)
      as Hp.
    rewrite Hwhite in Hp. exact Hp.
Qed.

Lemma fixed_width_rows_witness :
  exists out,
    Compositor.compose Props.spaced_fixed Props.red_green_blue = inr out /\
    Props.rows_of_pages Props.spaced_fixed Props.red_green_blue
      (fun page => (PIL.width out - PIL.width page) / 2) out.
Proof.
  apply (fixed_width_rows Props.spaced_fixed Props.red_green_blue).
  - discriminate.
  - simpl. lia.
  - reflexivity.
  - canvas_fits_by_evaluation.
Defined.

(** X8. Under the AutoWidth policy, when the canvas fits Pillow (its
    height is within a C [int] and its pixels within the guard of [crop]),
    the rows of a page show the page from column 0 on and white to the
    right of it, as far as the output is wide, the rows of the spacing are
    white, and the trim never cuts content: every pixel of every page that
    is not background lies within the width of the output. *)
Theorem auto_width_rows
    (self : Compositor.ImageCompositor) (images : list PIL.Image) :
  images <> [] ->
  0 <= Compositor.spacing self ->
  Compositor.auto_width self = true ->
  Props.canvas_fits self images ->
  exists out,
    Compositor.compose self images = inr out /\
    Props.rows_of_pages self images (fun _ => 0) out /\
    Props.no_content_cut images out.
Proof.
  intros Hne Hs Hpol Hfit0.
  pose proof (total_height_fits self images Hne (proj1 Hfit0)) as Hfit.
  destruct (compose_auto_width_ok self Hs images Hne Hfit) as (out & E & Hl).
  exists out. split; [apply compose_returns; auto; now rewrite Hpol|].
  destruct Hl as (m & blank & Em & Ec & Hl). cbv zeta in Hl.
  destruct Hl as (Ecw & Ech & Hpages & Hscan & Ewo & Eho & Hout & Hle & _).
  destruct (blank_canvas_ok self Hs images Hne Hfit)
    as (m' & c & Em' & Ec' & _ & _ & Hwhite & Hall & _).
  rewrite Em in Em'. injection Em' as <-.
  rewrite Ec in Ec'. injection Ec' as ->.
  set (canvas := Compositor.paste_left_all self (PIL.ImRGB c) images 0) in *.
  assert (Ecv : canvas = Props.paste_each (fun _ => 0)
                           (Compositor.spacing self) (PIL.ImRGB c) images 0)
    by apply paste_left_all_each.
  split.
  - intros i page x y Hi Hx.
    destruct (y_offset_in_canvas self Hs images i page Hi) as (H0 & H1).
    split.
    + intros Hy. rewrite Hout by lia. rewrite Ecv.
      pose proof (paste_each_band (fun _ => 0) (Compositor.spacing self) Hs
                    images c 0 i page x y Hi Hy) as Hp.
      rewrite Hwhite in Hp. exact Hp.
    + intros Hy Hlt. pose proof (height_nonneg page) as Hpg.
      rewrite Hout by lia. rewrite Ecv.
      pose proof (paste_each_gap (fun _ => 0) (Compositor.spacing self) Hs
                    images c 0 i page x y Hi Hy) as Hp.
      rewrite Hwhite in Hp. exact Hp.
  - intros page x y Hin Hx Hy Hc.
    pose proof (Hall page Hin) as Hpw.
    apply In_nth_error in Hin as (i & Hi).
    destruct (y_offset_in_canvas self Hs images i page Hi) as (H0 & H1).
    assert (Hcc : Props.content (PIL.load_rgb canvas) x
                    (Props.y_offset_of self images i + y) = true).
    { unfold Props.content. rewrite (Hpages i page x y Hi Hx Hy). exact Hc. }
    assert (Hhas : Props.has_content (PIL.load_rgb canvas) (PIL.width canvas)
                     (PIL.height canvas)).
    { exists x, (Props.y_offset_of self images i + y).
      rewrite Ecw, Ech. repeat split; try lia. exact Hcc. }
    destruct (Hscan Hhas) as (Haw & _ & Hnone).
    rewrite Ewo.
    destruct (Z.ltb_spec (Compositor._find_actual_width canvas) m); [|lia].
    destruct (Z_lt_dec x (Compositor._find_actual_width canvas)); auto.
    rewrite Hnone in Hcc; [discriminate|lia|rewrite Ech; lia].
Qed.

Lemma auto_width_rows_witness :
  exists out,
    Compositor.compose Props.spaced_auto Props.red_green_blue = inr out /\
    Props.rows_of_pages Props.spaced_auto Props.red_green_blue (fun _ => 0) out
    /\ Props.no_content_cut Props.red_green_blue out.
Proof.
  apply (auto_width_rows Props.spaced_auto Props.red_green_blue).
  - discriminate.
  - simpl. lia.
  - reflexivity.
  - canvas_fits_by_evaluation.
Defined.

Section OutputMode.
Import PIL Props Compositor.

Variable self : ImageCompositor.
Hypothesis spacing_nonneg : 0 <= spacing self.
Variable images : list Image.
Hypothesis images_nonempty : images <> [].
Hypothesis height_fits : total_height_of self images <= INT_MAX.

(** Whatever the modes of the pages are, the composed image is ['RGB']. *)
Lemma compose_mode_rgb (out : Image) :
  compose self images = inr out -> mode out = RGB.
Proof.
  destruct (blank_canvas_ok self spacing_nonneg images images_nonempty
              height_fits) as (m & c & Em & Ec & Hcw & Hch & _).
  pose proof (total_height_of_nonneg self spacing_nonneg images) as Htot.
  unfold compose. destruct images as [|im rest] eqn:Eimg; [contradiction|].
  rewrite <- Eimg in *.
  destruct (auto_width self).
  - unfold _compose_auto_width. rewrite Em. cbn [Py.bind Py.ret].
    rewrite Ec. cbn [Py.bind Py.ret].
    set (canvas := paste_left_all self (ImRGB c) images 0).
    assert (Hm : mode canvas = RGB /\ width canvas = m /\
                 height canvas = total_height_of self images).
    { unfold canvas. rewrite paste_left_all_each.
      destruct (paste_each_size (fun _ => 0) (spacing self) images
                  (ImRGB c) 0) as (-> & -> & ->). simpl. auto. }
    destruct Hm as (Hm & Ewc & Ehc).
    destruct (Z.ltb_spec (_find_actual_width canvas) m).
    + pose proof (find_actual_width_range canvas) as Haw.
      destruct (crop_ok canvas 0 0 (_find_actual_width canvas)
                  (total_height_of self images)) as (o & Eo & Hmo & _);
        try lia.
      rewrite Eo. cbn [Py.try_except]. now intros [= <-].
    + cbn [Py.try_except]. now intros [= <-].
  - unfold _compose_fixed_width, _calculate_canvas_size.
    rewrite Em. cbn [Py.bind Py.ret]. rewrite Ec. cbn [Py.bind Py.ret].
    cbn [Py.try_except]. intros [= <-].
    rewrite paste_centered_all_each.
    now destruct (paste_each_size
                    (fun im => (width (ImRGB c) - width im) / 2) (spacing self)
                    images (ImRGB c) 0) as (_ & _ & ->).
Qed.

End OutputMode.



(** X10. A single page comes back as it is: under the FixedWidth policy
    always, and under the AutoWidth policy when its last column holds
    content, the output has the size and the pixels of the page, whatever
    the spacing is. *)
Theorem compose_single_page
    (self : Compositor.ImageCompositor) (page : PIL.Image) :
  0 <= Compositor.spacing self ->
  (Compositor.auto_width self = true ->
   1 <= PIL.width page /\
   exists y, 0 <= y < PIL.height page /\
             Props.content (PIL.load_rgb page) (PIL.width page - 1) y = true) ->
  exists out,
    Compositor.compose self [page] = inr out /\
    PIL.mode out = PIL.RGB /\
    PIL.size out = PIL.size page /\
    forall x y, 0 <= x < PIL.width page -> 0 <= y < PIL.height page ->
                PIL.load_rgb out x y = PIL.load_rgb page x y.
Proof.
  intros Hs Hlast.
  assert (Hne : [page] <> []) by discriminate.
  assert (Htot : Compositor.total_height_of self [page] = PIL.height page).
  { now apply (total_height_of_cases self [page]). }
  assert (Hfit : Compositor.total_height_of self [page] <= PIL.INT_MAX).
  { rewrite Htot. apply size_le_int_max. }
  assert (Hmax : Py.max (map PIL.width [page]) = inr (PIL.width page))
    by reflexivity.
  destruct (Compositor.auto_width self) eqn:Hpol.
  - destruct (Hlast eq_refl) as (Hw & y0 & Hy0 & Hc).
    destruct (compose_auto_width_ok self Hs [page] Hne Hfit) as (out & E & Hl).
    exists out. split; [apply compose_returns; auto; now rewrite Hpol|].
    destruct Hl as (m & blank & Em & Ec & Hl). cbv zeta in Hl.
    destruct Hl as (Ecw & Ech & Hpages & _ & _ & Eho & Hout & _ & Hfull).
    rewrite Hmax in Em. injection Em as <-.
    assert (Ewo : PIL.width out = PIL.width page).
    { apply Hfull. exists page, y0. repeat split; auto; try lia. now left. }
    split.
    { apply (compose_mode_rgb self Hs [page] Hne Hfit).
      apply compose_returns; auto. now rewrite Hpol. }
    split; [unfold PIL.size; now rewrite Ewo, Eho, Ech, Htot|].
    intros x y Hx Hy. rewrite Hout by (rewrite ?Ewo, ?Eho, ?Ech, ?Htot; lia).
    exact (Hpages 0%nat page x y eq_refl Hx Hy).
  - destruct (compose_fixed_width_ok self Hs [page] Hne Hfit)
      as (out & E & m & Em & Hsz & Hpx).
    exists out. split; [apply compose_returns; auto; now rewrite Hpol|].
    rewrite Hmax in Em. injection Em as <-.
    split.
    { apply (compose_mode_rgb self Hs [page] Hne Hfit).
      apply compose_returns; auto. now rewrite Hpol. }
    split; [now rewrite Hsz, Htot|].
    intros x y Hx Hy.
    specialize (Hpx 0%nat page x y eq_refl Hx Hy).
    replace ((PIL.width page - PIL.width page) / 2 + x) with x in Hpx
      by (rewrite Z.sub_diag; reflexivity).
    exact Hpx.
Qed.

Lemma compose_single_page_witness :
  exists out,
    Compositor.compose Props.spaced_auto [Props.red_page] = inr out /\
    PIL.mode out = PIL.RGB /\
    PIL.size out = (100, 50) /\
    forall x y, 0 <= x < 100 -> 0 <= y < 50 ->
                PIL.load_rgb out x y = (255, 0, 0).
Proof.
  apply (compose_single_page Props.spaced_auto Props.red_page).
  - simpl. lia.
  - intros _. split; [simpl; lia|]. exists 0. split; [simpl; lia|reflexivity].
Defined.

(* ================================================================== *)
(** * Validation before the pipeline *)
(* ================================================================== *)

Section Formats.

Lemma str_in_formats (s : string) :
  Config.str_in s ["png"; "jpeg"; "jpg"] = true <->
  s = "png" \/ s = "jpeg" \/ s = "jpg".
Proof.
  unfold Config.str_in. cbn [existsb].
  rewrite !orb_true_iff, !String.eqb_eq. intuition congruence.
Qed.

Lemma str_in_jpeg (s : string) :
  Config.str_in s ["jpeg"; "jpg"] = true <-> s = "jpeg" \/ s = "jpg".
Proof.
  unfold Config.str_in. cbn [existsb].
  rewrite !orb_true_iff, !String.eqb_eq. intuition congruence.
Qed.

(** What [OutputGenerator.__init__] returns, format by format. *)
Lemma output_init_cases (lower : string -> string) (f : string) (q : Z) :
  (exists g, Output.__init__ lower f q = inr g) <->
  (lower f = "png" \/ lower f = "jpeg" \/ lower f = "jpg") /\ 1 <= q <= 100.
Proof.
  unfold Output.__init__. cbv zeta.
  destruct (Config.str_in (lower f) ["png"; "jpeg"; "jpg"]) eqn:Ef; cbn [negb].
  - apply str_in_formats in Ef.
    destruct (Z.leb_spec 1 q), (Z.leb_spec q 100); cbn [andb negb];
      split; try (intros (g & [=])); try (intros (_ & ?); lia);
      eauto.
  - split; [intros (g & [=])|].
    intros (Hf & _). apply str_in_formats in Hf. congruence.
Qed.

End Formats.

(** X11. [validate_arguments] returns [True] or raises a [ValueError]; it
    returns [True] exactly when the DPI is within 72..300, the quality
    within 1..100, and neither the spacing nor the crop margin is
    negative, and then the renderer and the compositor that [main] builds
    from the same arguments are constructed without error. *)
Theorem validate_arguments_guards (args : Cli.Namespace) :
  (Cli.validate_arguments args = inr true \/
   exists msg, Cli.validate_arguments args = inl (Py.ValueError msg)) /\
  (Cli.validate_arguments args = inr true <->
   72 <= Cli.dpi args <= 300 /\ 1 <= Cli.quality args <= 100 /\
   0 <= Cli.spacing args /\ 0 <= Cli.crop_margin args) /\
  (Cli.validate_arguments args = inr true ->
   Renderer.__init__ (Cli.dpi args) (negb (Cli.no_crop args))
                     (Cli.crop_margin args)
   = inr (Renderer.mkPDFRenderer (Cli.dpi args) (negb (Cli.no_crop args))
                                 (Cli.crop_margin args)) /\
   Compositor.__init__ (Cli.spacing args) (negb (Cli.fixed_width args))
   = inr (Compositor.mkImageCompositor (Cli.spacing args)
                                       (negb (Cli.fixed_width args)))).
Proof.
  unfold Cli.validate_arguments, Renderer.__init__, Compositor.__init__.
  destruct (Z.leb_spec 72 (Cli.dpi args)), (Z.leb_spec (Cli.dpi args) 300),
    (Z.leb_spec 1 (Cli.quality args)), (Z.leb_spec (Cli.quality args) 100),
    (Z.ltb_spec (Cli.spacing args) 0), (Z.ltb_spec (Cli.crop_margin args) 0);
    cbn [andb negb];
    (split; [solve [left; reflexivity | right; eexists; reflexivity]|]);
    (split; [split; [try discriminate; intros _; lia
                    | try reflexivity; intros; lia]
            | try discriminate; intros _; split; reflexivity]).
Qed.

(** X12. [ConversionConfig.validate] accepts exactly the configurations
    with a DPI within 72..300, a format that is png, jpeg or jpg once
    lowered, a quality within 1..100 when the format is JPEG, and a
    spacing that is not negative.  An accepted configuration always yields
    a compositor; it yields a renderer only when the crop margin, which
    [validate] does not look at, is not negative, and an output generator
    only when the quality, which it ignores for PNG, is within 1..100. *)
Theorem config_validate_accepts
    (lower : string -> string) (cfg : Config.ConversionConfig) :
  (Config.validate lower cfg = (true, "") <-> Props.config_in_range lower cfg)
  /\
  (Config.validate lower cfg = (true, "") ->
   (exists c, Compositor.__init__ (Config.spacing cfg) (Config.auto_width cfg)
              = inr c) /\
   ((exists r, Renderer.__init__ (Config.dpi cfg) (Config.auto_crop cfg)
                                 (Config.crop_margin cfg) = inr r)
    <-> 0 <= Config.crop_margin cfg) /\
   ((exists g, Output.__init__ lower (Config.format cfg) (Config.quality cfg)
               = inr g)
    <-> 1 <= Config.quality cfg <= 100)).
Proof.
  assert (Hiff : Config.validate lower cfg = (true, "")
                 <-> Props.config_in_range lower cfg).
  { unfold Config.validate, Props.config_in_range.
    destruct (Z.leb_spec 72 (Config.dpi cfg)),
      (Z.leb_spec (Config.dpi cfg) 300); cbn [andb negb];
      try (split; [discriminate | intros (? & _); lia]).
    destruct (Config.str_in (lower (Config.format cfg)) ["png"; "jpeg"; "jpg"])
      eqn:Ef; cbn [negb].
    2:{ split; [discriminate|]. intros (_ & Hf & _).
        assert (Config.str_in (lower (Config.format cfg))
                  ["png"; "jpeg"; "jpg"] = true)
          by (apply str_in_formats; tauto).
        congruence. }
    apply str_in_formats in Ef.
    destruct (Config.str_in (lower (Config.format cfg)) ["jpeg"; "jpg"])
      eqn:Ej.
    - apply str_in_jpeg in Ej.
      assert (Hnp : lower (Config.format cfg) <> "png")
        by (destruct Ej as [-> | ->]; discriminate).
      destruct (Z.leb_spec 1 (Config.quality cfg)),
        (Z.leb_spec (Config.quality cfg) 100); cbn [andb negb];
        try (split; [discriminate | intros (_ & [?|(_ & ?)] & _);
                                    [contradiction | lia]]).
      destruct (Z.ltb_spec (Config.spacing cfg) 0).
      + split; [discriminate | intros (_ & _ & ?); lia].
      + split; [intros _|reflexivity]. split; [lia|]. split; [|lia].
        right. split; [exact Ej | lia].
    - assert (Hpng : lower (Config.format cfg) = "png").
      { destruct Ef as [?|Hj]; auto.
        apply str_in_jpeg in Hj. congruence. }
      cbn [andb].
      destruct (Z.ltb_spec (Config.spacing cfg) 0).
      + split; [discriminate | intros (_ & _ & ?); lia].
      + split; [intros _|reflexivity]. split; [lia|]. split; [|lia].
        left. exact Hpng. }
  split; [exact Hiff|].
  intros Hv. apply Hiff in Hv. destruct Hv as (Hdpi & Hfmt & Hsp).
  split; [|split].
  - unfold Compositor.__init__.
    destruct (Z.ltb_spec (Config.spacing cfg) 0); [lia|]. eexists; reflexivity.
  - unfold Renderer.__init__.
    destruct (Z.leb_spec 72 (Config.dpi cfg)); [|lia].
    destruct (Z.leb_spec (Config.dpi cfg) 300); [|lia]. cbn [andb negb].
    destruct (Z.ltb_spec (Config.crop_margin cfg) 0).
    + split; [intros (r & [=]) | lia].
    + split; [lia | intros _; eexists; reflexivity].
  - rewrite output_init_cases. split; [tauto|].
    intros Hq. split; [|exact Hq]. tauto.
Qed.

Section OutputFormat.

(** The fields of a constructed output generator. *)
Lemma output_init_result (lower : string -> string) (f : string) (q : Z)
    (g : Output.OutputGenerator) :
  Output.__init__ lower f q = inr g ->
  (Output.format g = "png" \/ Output.format g = "jpeg") /\
  (Output.format g = "png" <-> lower f = "png") /\
  Output.quality g = q /\ 1 <= q <= 100.
Proof.
  intros E.
  assert (Hex : exists g', Output.__init__ lower f q = inr g') by eauto.
  apply output_init_cases in Hex as (Hf & Hq).
  unfold Output.__init__ in E. cbv zeta in E.
  assert (E3 : Config.str_in (lower f) ["png"; "jpeg"; "jpg"] = true)
    by now apply str_in_formats.
  rewrite E3 in E. cbn [negb] in E.
  destruct (Z.leb_spec 1 q); [|lia]. destruct (Z.leb_spec q 100); [|lia].
  cbn [andb negb] in E.
  destruct (Config.str_in (lower f) ["jpeg"; "jpg"]) eqn:Ej;
    injection E as <-; cbn [Output.format Output.quality].
  - apply str_in_jpeg in Ej.
    repeat split; auto; try lia; try discriminate.
    intros Hp. destruct Ej as [Hj|Hj]; rewrite Hj in Hp; discriminate.
  - assert (Hpng : lower f = "png").
    { destruct Hf as [?|Hj]; auto. apply str_in_jpeg in Hj. congruence. }
    repeat split; auto; lia.
Qed.

End OutputFormat.

(** X13. An output generator that has been constructed holds a normalized
    format, ['png'] or ['jpeg'] and nothing else, so that one of the two
    branches of [save] always applies, and a quality within 1..100; the
    format is ['png'] exactly when the lowered argument was. *)
Theorem output_generator_normalized
    (lower : string -> string) (f : string) (q : Z)
    (g : Output.OutputGenerator) :
  Output.__init__ lower f q = inr g ->
  (Output.format g = "png" \/ Output.format g = "jpeg") /\
  (Output.format g = "png" <-> lower f = "png") /\
  Output.quality g = q /\ 1 <= q <= 100.
Proof. apply output_init_result. Qed.

Lemma output_generator_normalized_witness :
  Output.__init__ Props.ascii_lower "JPG" 90
  = inr (Output.mkOutputGenerator "jpeg" 90) /\
  ("jpeg" = "png" \/ "jpeg" = "jpeg") /\
  ("jpeg" = "png" <-> Props.ascii_lower "JPG" = "png") /\
  90 = 90 /\ 1 <= 90 <= 100.
Proof.
  split; [reflexivity|].
  exact (output_generator_normalized Props.ascii_lower "JPG" 90
           (Output.mkOutputGenerator "jpeg" 90) eq_refl).
Defined.

(** X14. When no output path is configured, the default path of the
    configuration and the default path of an output generator built from
    the same format are the same path: the two modules agree on the file
    name and on its extension, [png] or [jpg]. *)
Theorem default_output_paths_agree
    (lower : string -> string) (stem : Config.Path -> string)
    (parent : Config.Path -> Config.Path)
    (joinpath : Config.Path -> string -> Config.Path)
    (cfg : Config.ConversionConfig) (g : Output.OutputGenerator) :
  Config.output_path cfg = None ->
  Output.__init__ lower (Config.format cfg) (Config.quality cfg) = inr g ->
  Config.get_output_path lower stem parent joinpath cfg
  = Output._generate_default_output_path stem parent joinpath g
      (Config.input_path cfg).
Proof.
  intros Hnone E.
  destruct (output_init_result _ _ _ _ E) as (Hfmt & Hpng & _).
  assert (Hex : exists g', Output.__init__ lower (Config.format cfg)
                             (Config.quality cfg) = inr g') by eauto.
  apply output_init_cases in Hex as (Hf & _).
  unfold Config.get_output_path, Output._generate_default_output_path.
  rewrite Hnone. cbv zeta.
  destruct Hf as [Hf|[Hf|Hf]]; rewrite Hf.
  - rewrite (proj2 Hpng Hf). reflexivity.
  - destruct Hfmt as [Hg|Hg];
      [apply Hpng in Hg; rewrite Hf in Hg; discriminate|].
    rewrite Hg. reflexivity.
  - destruct Hfmt as [Hg|Hg];
      [apply Hpng in Hg; rewrite Hf in Hg; discriminate|].
    rewrite Hg. reflexivity.
Qed.

Lemma default_output_paths_agree_witness :
  Config.get_output_path Props.ascii_lower Props.simple_stem
    Props.simple_parent Props.simple_join Props.default_config
  = "in/doc_long_screenshot.jpg".
Proof.
  rewrite (default_output_paths_agree Props.ascii_lower Props.simple_stem
             Props.simple_parent Props.simple_join Props.default_config
             (Output.mkOutputGenerator "jpeg" 85) eq_refl eq_refl).
  reflexivity.
Defined.

(* ================================================================== *)
(** * The two right-edge scans, and the pipeline end to end *)
(* ================================================================== *)

(** X15. The compositor's width scan and the renderer's right-edge scan,
    written twice in the source, agree on every image that has content;
    on an all-background image they differ: the renderer's scan returns
    the full width, the compositor's returns 1.  The compositor's result
    is always at least 1 and, on an image at least one pixel wide, at most
    the width. *)
Theorem actual_width_vs_right_boundary (image : PIL.Image) :
  (Props.has_content (PIL.load_rgb image) (PIL.width image) (PIL.height image)
   -> Compositor._find_actual_width image
      = Renderer._find_right_boundary (PIL.load_rgb image) (PIL.width image)
          (PIL.height image)) /\
  (Props.blank (PIL.load_rgb image) (PIL.width image) (PIL.height image)
   -> Compositor._find_actual_width image = 1 /\
      Renderer._find_right_boundary (PIL.load_rgb image) (PIL.width image)
        (PIL.height image) = PIL.width image) /\
  1 <= Compositor._find_actual_width image <= Z.max 1 (PIL.width image).
Proof.
  split; [apply find_actual_width_content|].
  split; [|apply find_actual_width_range].
  intros Hb. split; [now apply find_actual_width_blank|].
  pose proof (blank_content_box _ _ _ Hb) as Hbx.
  unfold Renderer.content_box in Hbx. now injection Hbx.
Qed.

Section Pipeline.
Import PIL Props.

(** Pages that are no larger add up to no more, and none is wider than a
    bound on the sources. *)
Lemma no_larger_heights (images : list Image) : forall pages,
  rgb_and_no_larger images pages ->
  List.length pages = List.length images /\
  Py.sum (map height pages) <= Py.sum (map height images) /\
  forall W, (forall im, In im images -> width im <= W) ->
            forall page, In page pages -> width page <= W.
Proof.
  unfold rgb_and_no_larger.
  induction images as [|im rest IH]; intros pages H; inversion H; subst.
  - split; [reflexivity|]. split; [reflexivity|]. intros W _ page [].
  - destruct (IH _ H4) as (Hlen & Hsum & Hw).
    destruct H2 as (_ & Hwi & Hhi).
    cbn [map List.length]. rewrite !sum_cons.
    split; [lia|]. split; [lia|].
    intros W HW page [<-|Hin].
    + specialize (HW im (or_introl eq_refl)). lia.
    + apply (Hw W); auto. intros im' Hin'. apply HW. now right.
Qed.

(** What [compose] returns on a non-empty list, in one statement. *)
Lemma compose_size_ok (self : Compositor.ImageCompositor)
    (images : list Image) :
  images <> [] -> 0 <= Compositor.spacing self ->
  Compositor.total_height_of self images <= INT_MAX ->
  exists out m,
    Compositor.compose self images = inr out /\
    Py.max (map width images) = inr m /\
    (exists page, In page images /\ width page = m) /\
    width out <= m /\
    height out = Compositor.total_height_of self images.
Proof.
  intros Hne Hs Hfit.
  destruct (blank_canvas_ok self Hs images Hne Hfit)
    as (m & c & Em & _ & _ & _ & _ & _ & Hex).
  destruct (Compositor.auto_width self) eqn:Hpol.
  - destruct (compose_auto_width_ok self Hs images Hne Hfit) as (out & E & Hl).
    destruct Hl as (m' & blank & Em' & _ & Hl). cbv zeta in Hl.
    destruct Hl as (_ & Ech & _ & _ & _ & Eho & _ & Hle & _).
    rewrite Em in Em'. injection Em' as <-.
    exists out, m. repeat split; auto; try congruence.
    apply compose_returns; auto. now rewrite Hpol.
  - destruct (compose_fixed_width_ok self Hs images Hne Hfit)
      as (out & E & m' & Em' & Hsz & _).
    rewrite Em in Em'. injection Em' as <-.
    unfold size in Hsz. injection Hsz as Ew Eh.
    exists out, m. repeat split; auto; try lia.
    apply compose_returns; auto. now rewrite Hpol.
Qed.

End Pipeline.



(** X17. [_paste_centered] centres up to one pixel: for an image no wider
    than the canvas, the margin left of it is [(canvas_width - width) // 2],
    the margin right of it is as large or one pixel larger; the canvas
    keeps its size, shows the image in that rectangle from row [y_offset]
    on, and is unchanged everywhere else. *)
Theorem paste_centered_margins
    (c : PIL.Raster PIL.rgb) (image : PIL.Image) (y_offset : Z) :
  PIL.width image <= PIL.width (PIL.ImRGB c) ->
  exists left_margin right_margin,
    left_margin = (PIL.width (PIL.ImRGB c) - PIL.width image) / 2 /\
    left_margin + PIL.width image + right_margin = PIL.width (PIL.ImRGB c) /\
    0 <= left_margin <= right_margin /\ right_margin <= left_margin + 1 /\
    PIL.size (Compositor._paste_centered (PIL.ImRGB c) image y_offset)
    = PIL.size (PIL.ImRGB c) /\
    forall x y,
      PIL.load_rgb (Compositor._paste_centered (PIL.ImRGB c) image y_offset)
                   x y
      = if (left_margin <=? x) && (x <? left_margin + PIL.width image)
           && (y_offset <=? y) && (y <? y_offset + PIL.height image)
        then PIL.load_rgb image (x - left_margin) (y - y_offset)
        else PIL.at_ c x y.
Proof.
  intros Hw.
  set (cw := PIL.width (PIL.ImRGB c)) in *.
  set (w := PIL.width image) in *.
  exists ((cw - w) / 2), (cw - w - (cw - w) / 2).
  assert (Hdiv : 0 <= (cw - w) / 2 /\
                 (cw - w) / 2 <= cw - w - (cw - w) / 2 /\
                 cw - w - (cw - w) / 2 <= (cw - w) / 2 + 1).
  { Z.div_mod_to_equations. lia. }
  split; [reflexivity|]. split; [lia|]. split; [lia|]. split; [lia|].
  unfold Compositor._paste_centered. fold cw w. split.
  - unfold PIL.size.
    destruct (paste_size (PIL.ImRGB c) image ((cw - w) / 2, y_offset))
      as (-> & -> & _). reflexivity.
  - intros x y. rewrite paste_load. unfold PIL.inside. fold w.
    destruct (Z.leb_spec 0 (x - (cw - w) / 2)), (Z.leb_spec ((cw - w) / 2) x);
      try lia; cbn [andb]; auto.
    destruct (Z.ltb_spec (x - (cw - w) / 2) w),
      (Z.ltb_spec x ((cw - w) / 2 + w)); try lia; cbn [andb]; auto.
    destruct (Z.leb_spec 0 (y - y_offset)), (Z.leb_spec y_offset y);
      try lia; cbn [andb]; auto.
    destruct (Z.ltb_spec (y - y_offset) (PIL.height image)),
      (Z.ltb_spec y (y_offset + PIL.height image)); try lia; auto.
Qed.

Lemma paste_centered_margins_witness :
  PIL.width Props.green_patch <= PIL.width (PIL.ImRGB Props.white_canvas) /\
  PIL.load_rgb (Compositor._paste_centered (PIL.ImRGB Props.white_canvas)
                  Props.green_patch 10) 50 20 = (0, 255, 0) /\
  PIL.load_rgb (Compositor._paste_centered (PIL.ImRGB Props.white_canvas)
                  Props.green_patch 10) 40 20 = (255, 255, 255).
Proof.
  assert (Hw : PIL.width Props.green_patch
               <= PIL.width (PIL.ImRGB Props.white_canvas)) by (simpl; lia).
  split; [exact Hw|].
  destruct (paste_centered_margins Props.white_canvas Props.green_patch 10 Hw)
    as (l & r & El & _ & _ & _ & _ & Hpx).
  rewrite !Hpx, El. split; reflexivity.
Defined.
